(** * Duck Creek XML connector: hierarchical-document normalization engine

    A shallow embedding of [sources/duck_creek/duck_creek.py] (class
    [LakeflowConnect]) and the properties of its extraction rules, file
    selection and watermark handling.

    Python objects are modelled as follows.
    - [xml.etree.ElementTree.Element]: the inductive [Element] (tag,
      attribute dictionary, text, children in document order).
    - [dict]: stdpp's [gmap] with string keys.
    - [str]: [string]; [<] and [>] on [str] are the lexicographic order
      [String.ltb].
    - exceptions: the [result] type ([Ok] / [Raise]).
    - mutable loop state ([records], the per-file counters): explicit
      state passing through [for_each].
    - the file system and the clock: the record [World]. *)

From Stdlib Require Import Ascii.
From stdpp Require Import base option list gmap strings pretty fin_maps.

#[local] Set Warnings "-register-all".

(** ** Python builtins that are kept abstract *)

(** [str.strip] and [float] (the parser of a floating-point literal, [None]
    standing for [ValueError]) are builtins of the host language; the engine
    only calls them. *)
Class Builtins := {
  pyfloat : Type;
  str_strip : string → string;
  float_of_str : string → option pyfloat;
}.

(** Truthiness of a string: [""] is falsy. *)
Definition nonempty (s : string) : bool :=
  match s with
  | "" => false
  | String _ _ => true
  end.

(** Truthiness of an optional string: [None] and [""] are falsy. *)
Definition truthy (o : option string) : bool :=
  match o with
  | Some s => nonempty s
  | None => false
  end.

(** [str(x)] inside an f-string, for [x] a string or [None]. *)
Definition py_str (o : option string) : string :=
  match o with
  | Some s => s
  | None => "None"
  end.

(** ** Exceptions *)

(** The exceptions the connector raises itself ([ValueError]) and those
    [ET.parse] raises: [ET.ParseError] for a document that is not
    well-formed, [LookupError] for an encoding declaration that names no
    known encoding, [OSError] for an entry that cannot be opened or read (a
    directory, a file without read permission). *)
Inductive exn :=
  | ValueError (msg : string)
  | ParseError
  | LookupError (msg : string)
  | OSError (msg : string).

Inductive result (A : Type) :=
  | Ok (a : A)
  | Raise (e : exn).
Arguments Ok {A} a.
Arguments Raise {A} e.

(** ** ElementTree *)

Module ET.

Inductive Element := mkElement {
  tag : string;
  attrib : gmap string string;
  text : option string;
  children : list Element;
}.

(** [elem.iter()]: the element and all its descendants, in document
    (pre-)order. *)
Fixpoint iter (e : Element) : list Element :=
  e :: match e with
       | mkElement _ _ _ cs => cs ≫= iter
       end.

(** The two path forms the connector uses: ["tag"] and [".//tag"]. *)
Inductive path :=
  | Child (t : string)
  | Descendant (t : string).

(** [elem.findall(path)] *)
Definition findall (p : path) (e : Element) : list Element :=
  match p with
  | Child t => filter (λ c, tag c = t) (children e)
  | Descendant t => filter (λ d, tag d = t) (children e ≫= iter)
  end.

(** [elem.find(path)] *)
Definition find (p : path) (e : Element) : option Element :=
  head (findall p e).

(** [elem.get(key)] *)
Definition get (e : Element) (key : string) : option string :=
  attrib e !! key.

End ET.

(** ** The file system and the clock *)

Record World := {
  (** [glob.glob(pattern)] *)
  glob : string → list string;
  (** [datetime.fromtimestamp(os.path.getmtime(path)).isoformat()] *)
  getmtime_iso : string → string;
  (** [ET.parse(path).getroot()]: the tree, or the exception raised *)
  xml_parse : string → result ET.Element;
  (** [datetime.utcnow().isoformat()] *)
  utcnow_iso : string;
}.

Definition ET_parse (w : World) (file_path : string) : result ET.Element :=
  xml_parse w file_path.

Fixpoint has_sep (s : string) : bool :=
  match s with
  | "" => false
  | String c r => bool_decide (c = "/"%char) || has_sep r
  end.

(** [os.path.basename] *)
Fixpoint basename (p : string) : string :=
  match p with
  | "" => ""
  | String c r =>
      if has_sep r then basename r
      else if bool_decide (c = "/"%char) then r else p
  end.

Fixpoint ends_with_sep (s : string) : bool :=
  match s with
  | "" => false
  | String c "" => bool_decide (c = "/"%char)
  | String _ r => ends_with_sep r
  end.

(** [os.path.join] of two components. *)
Definition os_path_join (a b : string) : string :=
  match b with
  | String "/" _ => b
  | _ =>
      match a with
      | "" => b
      | _ => if ends_with_sep a then a +:+ b else a +:+ "/" +:+ b
      end
  end.

(** ** Loops *)

(** [for x in xs: body], as a transformer of the loop-carried state. *)
Definition for_each {A S : Type} (xs : list A) (body : A → S → S) : S → S :=
  λ s, foldl (λ s x, body x s) s xs.

(** ** Schema catalog *)

Inductive DataType := StringType | LongType | DoubleType | BooleanType.

Record StructField := mkField {
  field_name : string;
  field_type : DataType;
  field_nullable : bool;
}.

Definition StructType := list StructField.

Record TableMetadata := mkMetadata {
  primary_keys : list string;
  cursor_field : string;
  ingestion_type : string;
}.

Definition list_tables : list string :=
  [ "policies"; "lines"; "coverages"; "exposures"; "limits"; "deductibles";
    "locations"; "buildings"; "occupancies"; "accounts"; "addresses";
    "underwriter_referrals"; "tax_surcharges" ].

(** The [schemas] dictionary of [get_table_schema]. *)
Definition schemas : gmap string StructType :=
  list_to_map [
    ("policies", [
       mkField "policy_id" StringType false;
       mkField "session_id" StringType true;
       mkField "effective_date" StringType true;
       mkField "expiration_date" StringType true;
       mkField "term" StringType true;
       mkField "line_of_business" StringType true;
       mkField "quote_number" StringType true;
       mkField "policy_number" StringType true;
       mkField "status" StringType true;
       mkField "last_transaction_type" StringType true;
       mkField "primary_rating_state" StringType true;
       mkField "segment" StringType true;
       mkField "product" StringType true;
       mkField "writing_company" StringType true;
       mkField "filing_type" StringType true;
       mkField "agency_id" StringType true;
       mkField "producer" StringType true;
       mkField "premium" DoubleType true;
       mkField "premium_written" DoubleType true;
       mkField "premium_change" DoubleType true;
       mkField "transaction_date" StringType true;
       mkField "transaction_sequence_number" StringType true;
       mkField "endorsement_number" StringType true;
       mkField "term_number" StringType true;
       mkField "renewal_type" StringType true;
       mkField "cancellation_date" StringType true;
       mkField "include_terrorism" StringType true;
       mkField "include_gl" StringType true;
       mkField "include_property" StringType true;
       mkField "source_file" StringType true;
       mkField "file_modified_time" StringType true;
       mkField "_extracted_at" StringType false ]);
    ("lines", [
       mkField "line_id" StringType false;
       mkField "policy_id" StringType false;
       mkField "type" StringType true;
       mkField "written" DoubleType true;
       mkField "change" DoubleType true;
       mkField "is_reportable" StringType true;
       mkField "is_final_report" StringType true;
       mkField "has_earthquake_been_selected" StringType true;
       mkField "source_file" StringType true;
       mkField "_extracted_at" StringType false ]);
    ("coverages", [
       mkField "coverage_id" StringType false;
       mkField "line_id" StringType false;
       mkField "policy_id" StringType false;
       mkField "type" StringType true;
       mkField "premium" DoubleType true;
       mkField "written" DoubleType true;
       mkField "change" DoubleType true;
       mkField "is_cov_endorsement" StringType true;
       mkField "source_file" StringType true;
       mkField "_extracted_at" StringType false ]);
    ("exposures", [
       mkField "exposure_id" StringType false;
       mkField "line_id" StringType false;
       mkField "policy_id" StringType false;
       mkField "type" StringType true;
       mkField "i_value" StringType true;
       mkField "f_value" DoubleType true;
       mkField "s_value" StringType true;
       mkField "source_file" StringType true;
       mkField "_extracted_at" StringType false ]);
    ("limits", [
       mkField "limit_id" StringType false;
       mkField "line_id" StringType false;
       mkField "policy_id" StringType false;
       mkField "type" StringType true;
       mkField "amount" DoubleType true;
       mkField "i_value" StringType true;
       mkField "f_value" DoubleType true;
       mkField "scope" StringType true;
       mkField "source_file" StringType true;
       mkField "_extracted_at" StringType false ]);
    ("deductibles", [
       mkField "deductible_id" StringType false;
       mkField "line_id" StringType false;
       mkField "policy_id" StringType false;
       mkField "type" StringType true;
       mkField "amount" DoubleType true;
       mkField "i_value" StringType true;
       mkField "f_value" DoubleType true;
       mkField "scope" StringType true;
       mkField "source_file" StringType true;
       mkField "_extracted_at" StringType false ]);
    ("locations", [
       mkField "location_id" StringType false;
       mkField "account_id" StringType false;
       mkField "policy_id" StringType false;
       mkField "deleted" StringType true;
       mkField "source_file" StringType true;
       mkField "_extracted_at" StringType false ]);
    ("buildings", [
       mkField "building_id" StringType false;
       mkField "location_id" StringType false;
       mkField "policy_id" StringType false;
       mkField "source_file" StringType true;
       mkField "_extracted_at" StringType false ]);
    ("occupancies", [
       mkField "occupancy_id" StringType false;
       mkField "location_id" StringType false;
       mkField "policy_id" StringType false;
       mkField "source_file" StringType true;
       mkField "_extracted_at" StringType false ]);
    ("accounts", [
       mkField "account_id" StringType false;
       mkField "policy_id" StringType false;
       mkField "name" StringType true;
       mkField "dba" StringType true;
       mkField "entity_type" StringType true;
       mkField "brief_description" StringType true;
       mkField "primary_phone" StringType true;
       mkField "fax" StringType true;
       mkField "email" StringType true;
       mkField "same_as_mailing_address" StringType true;
       mkField "sic_code" StringType true;
       mkField "source_file" StringType true;
       mkField "_extracted_at" StringType false ]);
    ("addresses", [
       mkField "address_id" StringType false;
       mkField "location_id" StringType true;
       mkField "account_id" StringType true;
       mkField "policy_id" StringType false;
       mkField "latitude" StringType true;
       mkField "longitude" StringType true;
       mkField "last_verified" StringType true;
       mkField "source_file" StringType true;
       mkField "_extracted_at" StringType false ]);
    ("underwriter_referrals", [
       mkField "referral_id" StringType false;
       mkField "policy_id" StringType false;
       mkField "source_file" StringType true;
       mkField "_extracted_at" StringType false ]);
    ("tax_surcharges", [
       mkField "tax_surcharge_id" StringType false;
       mkField "policy_id" StringType false;
       mkField "line_id" StringType true;
       mkField "tax_state" StringType true;
       mkField "amount" DoubleType true;
       mkField "written" DoubleType true;
       mkField "change" DoubleType true;
       mkField "type" StringType true;
       mkField "source_file" StringType true;
       mkField "_extracted_at" StringType false ])
  ].

(** The [metadata] dictionary of [read_table_metadata]. *)
Definition metadata : gmap string TableMetadata :=
  list_to_map [
    ("policies", mkMetadata ["policy_id"] "file_modified_time" "cdc");
    ("lines", mkMetadata ["line_id"; "policy_id"] "_extracted_at" "cdc");
    ("coverages", mkMetadata ["coverage_id"; "line_id"; "policy_id"] "_extracted_at" "cdc");
    ("exposures", mkMetadata ["exposure_id"; "line_id"; "policy_id"] "_extracted_at" "cdc");
    ("limits", mkMetadata ["limit_id"; "line_id"; "policy_id"] "_extracted_at" "cdc");
    ("deductibles", mkMetadata ["deductible_id"; "line_id"; "policy_id"] "_extracted_at" "cdc");
    ("locations", mkMetadata ["location_id"; "policy_id"] "_extracted_at" "cdc");
    ("buildings", mkMetadata ["building_id"; "location_id"; "policy_id"] "_extracted_at" "cdc");
    ("occupancies", mkMetadata ["occupancy_id"; "location_id"; "policy_id"] "_extracted_at" "cdc");
    ("accounts", mkMetadata ["account_id"; "policy_id"] "_extracted_at" "cdc");
    ("addresses", mkMetadata ["address_id"; "policy_id"] "_extracted_at" "cdc");
    ("underwriter_referrals", mkMetadata ["referral_id"; "policy_id"] "_extracted_at" "cdc");
    ("tax_surcharges", mkMetadata ["tax_surcharge_id"; "policy_id"] "_extracted_at" "cdc")
  ].

Definition get_table_schema (table_name : string)
    (table_options : gmap string string) : result StructType :=
  match schemas !! table_name with
  | None => Raise (ValueError ("Unknown table: " +:+ table_name))
  | Some schema => Ok schema
  end.

Definition read_table_metadata (table_name : string)
    (table_options : gmap string string) : result TableMetadata :=
  match metadata !! table_name with
  | None => Raise (ValueError ("Unknown table: " +:+ table_name))
  | Some m => Ok m
  end.

(** ** Records *)

(** The scalars a record holds: [None], a [str] or a [float]. *)
Inductive value `{Builtins} :=
  | VNone
  | VStr (s : string)
  | VFloat (x : pyfloat).

(** A flat record: a dictionary from column name to scalar. *)
Abbreviation row := (gmap string value).

(** A dictionary display [{k1: v1, ...}]. *)
Definition dict `{Builtins} (items : list (string * value)) : row :=
  list_to_map items.

(** An optional string ([str] or [None]) as a scalar. *)
Definition opt_str `{Builtins} (o : option string) : value :=
  match o with
  | Some s => VStr s
  | None => VNone
  end.

(** ** Tree extractor *)

Section Extractor.

Context `{Builtins}.

Definition _get_text (elem : option ET.Element) (default : option string)
  : option string :=
  match elem with
  | Some e =>
      if truthy (ET.text e) then str_strip <$> ET.text e else default
  | None => default
  end.

Definition _get_float (elem : option ET.Element) (default : value) : value :=
  let text := _get_text elem None in
  if truthy text then
    match text ≫= float_of_str with
    | Some x => VFloat x
    | None => default
    end
  else default.

Definition _extract_policies (root : ET.Element)
    (source_file file_mtime extracted_at : string) : list row :=
  let session_id := ET.get root "id" in
  for_each (ET.findall (ET.Descendant "data") root) (λ data,
    for_each (ET.findall (ET.Child "policy") data) (λ policy records,
      let policy_id := ET.get policy "id" in
      let record := dict [
        ("policy_id", opt_str policy_id);
        ("session_id", opt_str session_id);
        ("effective_date", opt_str (_get_text (ET.find (ET.Child "EffectiveDate") policy) None));
        ("expiration_date", opt_str (_get_text (ET.find (ET.Child "ExpirationDate") policy) None));
        ("term", opt_str (_get_text (ET.find (ET.Child "Term") policy) None));
        ("line_of_business", opt_str (_get_text (ET.find (ET.Child "LineOfBusiness") policy) None));
        ("quote_number", opt_str (_get_text (ET.find (ET.Child "QuoteNumber") policy) None));
        ("policy_number", opt_str (_get_text (ET.find (ET.Child "PolicyNumber") policy) None));
        ("status", opt_str (_get_text (ET.find (ET.Child "Status") policy) None));
        ("last_transaction_type", opt_str (_get_text (ET.find (ET.Child "LastTransactionType") policy) None));
        ("primary_rating_state", opt_str (_get_text (ET.find (ET.Child "PrimaryRatingState") policy) None));
        ("segment", opt_str (_get_text (ET.find (ET.Child "Segment") policy) None));
        ("product", opt_str (_get_text (ET.find (ET.Child "Product") policy) None));
        ("writing_company", opt_str (_get_text (ET.find (ET.Child "WritingCompany") policy) None));
        ("filing_type", opt_str (_get_text (ET.find (ET.Child "FilingType") policy) None));
        ("agency_id", opt_str (_get_text (ET.find (ET.Child "AgencyID") policy) None));
        ("producer", opt_str (_get_text (ET.find (ET.Child "Producer") policy) None));
        ("premium", _get_float (ET.find (ET.Child "Premium") policy) VNone);
        ("premium_written", _get_float (ET.find (ET.Child "PremiumWritten") policy) VNone);
        ("premium_change", _get_float (ET.find (ET.Child "PremiumChange") policy) VNone);
        ("transaction_date", opt_str (_get_text (ET.find (ET.Child "TransactionDate") policy) None));
        ("transaction_sequence_number", opt_str (_get_text (ET.find (ET.Child "TransactionSequenceNumber") policy) None));
        ("endorsement_number", opt_str (_get_text (ET.find (ET.Child "EndorsementNumber") policy) None));
        ("term_number", opt_str (_get_text (ET.find (ET.Child "TermNumber") policy) None));
        ("renewal_type", opt_str (_get_text (ET.find (ET.Child "RenewalType") policy) None));
        ("cancellation_date", opt_str (_get_text (ET.find (ET.Child "CancellationDate") policy) None));
        ("include_terrorism", opt_str (_get_text (ET.find (ET.Child "IncludeTerrorism") policy) None));
        ("include_gl", opt_str (_get_text (ET.find (ET.Child "IncludeGL") policy) None));
        ("include_property", opt_str (_get_text (ET.find (ET.Child "IncludeProperty") policy) None));
        ("source_file", VStr source_file);
        ("file_modified_time", VStr file_mtime);
        ("_extracted_at", VStr extracted_at) ] in
      records ++ [record]))
    [].

Definition _extract_lines (root : ET.Element)
    (source_file extracted_at : string) : list row :=
  for_each (ET.findall (ET.Descendant "data") root) (λ data,
    for_each (ET.findall (ET.Child "policy") data) (λ policy,
      let policy_id := ET.get policy "id" in
      for_each (ET.findall (ET.Child "line") policy) (λ line records,
        let line_id := ET.get line "id" in
        let record := dict [
          ("line_id", opt_str line_id);
          ("policy_id", opt_str policy_id);
          ("type", opt_str (_get_text (ET.find (ET.Child "Type") line) None));
          ("written", _get_float (Some line) (opt_str (ET.get line "written")));
          ("change", _get_float (Some line) (opt_str (ET.get line "change")));
          ("is_reportable", opt_str (_get_text (ET.find (ET.Child "IsReportable") line) None));
          ("is_final_report", opt_str (_get_text (ET.find (ET.Child "IsFinalReport") line) None));
          ("has_earthquake_been_selected", opt_str (_get_text (ET.find (ET.Child "HasEarthquakeBeenSelected") line) None));
          ("source_file", VStr source_file);
          ("_extracted_at", VStr extracted_at) ] in
        records ++ [record])))
    [].

Definition _extract_coverages (root : ET.Element)
    (source_file extracted_at : string) : list row :=
  let '(records, coverage_counter) :=
    for_each (ET.findall (ET.Descendant "data") root) (λ data,
      for_each (ET.findall (ET.Child "policy") data) (λ policy,
        let policy_id := ET.get policy "id" in
        for_each (ET.findall (ET.Child "line") policy) (λ line,
          let line_id := ET.get line "id" in
          for_each (ET.findall (ET.Child "coverage") line)
            (λ coverage '(records, coverage_counter),
              let coverage_id := ET.get coverage "id" in
              let '(coverage_counter, coverage_id) :=
                if truthy coverage_id then (coverage_counter, coverage_id)
                else
                  let coverage_counter := S coverage_counter in
                  (coverage_counter,
                   Some ("cov_" +:+ py_str policy_id +:+ "_" +:+ py_str line_id
                         +:+ "_" +:+ pretty coverage_counter)) in
              let record := dict [
                ("coverage_id", opt_str coverage_id);
                ("line_id", opt_str line_id);
                ("policy_id", opt_str policy_id);
                ("type", opt_str (_get_text (ET.find (ET.Child "Type") coverage) None));
                ("premium", _get_float (ET.find (ET.Child "Premium") coverage) VNone);
                ("written", _get_float (Some coverage) (opt_str (ET.get coverage "written")));
                ("change", _get_float (Some coverage) (opt_str (ET.get coverage "change")));
                ("is_cov_endorsement", opt_str (_get_text (ET.find (ET.Child "IsCovEndorsement") coverage) None));
                ("source_file", VStr source_file);
                ("_extracted_at", VStr extracted_at) ] in
              (records ++ [record], coverage_counter)))))
      ([], 0) in
  records.

Definition _extract_exposures (root : ET.Element)
    (source_file extracted_at : string) : list row :=
  let '(records, exposure_counter) :=
    for_each (ET.findall (ET.Descendant "data") root) (λ data,
      for_each (ET.findall (ET.Child "policy") data) (λ policy,
        let policy_id := ET.get policy "id" in
        for_each (ET.findall (ET.Child "line") policy) (λ line,
          let line_id := ET.get line "id" in
          for_each (ET.findall (ET.Child "exposure") line)
            (λ exposure '(records, exposure_counter),
              let exposure_id := ET.get exposure "id" in
              let '(exposure_counter, exposure_id) :=
                if truthy exposure_id then (exposure_counter, exposure_id)
                else
                  let exposure_counter := S exposure_counter in
                  (exposure_counter,
                   Some ("exp_" +:+ py_str policy_id +:+ "_" +:+ py_str line_id
                         +:+ "_" +:+ pretty exposure_counter)) in
              let record := dict [
                ("exposure_id", opt_str exposure_id);
                ("line_id", opt_str line_id);
                ("policy_id", opt_str policy_id);
                ("type", opt_str (_get_text (ET.find (ET.Child "Type") exposure) None));
                ("i_value", opt_str (_get_text (ET.find (ET.Child "iValue") exposure) None));
                ("f_value", _get_float (ET.find (ET.Child "fValue") exposure) VNone);
                ("s_value", opt_str (_get_text (ET.find (ET.Child "sValue") exposure) None));
                ("source_file", VStr source_file);
                ("_extracted_at", VStr extracted_at) ] in
              (records ++ [record], exposure_counter)))))
      ([], 0) in
  records.

Definition _extract_limits (root : ET.Element)
    (source_file extracted_at : string) : list row :=
  let '(records, limit_counter) :=
    for_each (ET.findall (ET.Descendant "data") root) (λ data,
      for_each (ET.findall (ET.Child "policy") data) (λ policy,
        let policy_id := ET.get policy "id" in
        for_each (ET.findall (ET.Child "line") policy) (λ line,
          let line_id := ET.get line "id" in
          for_each (ET.findall (ET.Child "limit") line)
            (λ limit '(records, limit_counter),
              let limit_id := ET.get limit "id" in
              let '(limit_counter, limit_id) :=
                if truthy limit_id then (limit_counter, limit_id)
                else
                  let limit_counter := S limit_counter in
                  (limit_counter,
                   Some ("lim_" +:+ py_str policy_id +:+ "_" +:+ py_str line_id
                         +:+ "_" +:+ pretty limit_counter)) in
              let record := dict [
                ("limit_id", opt_str limit_id);
                ("line_id", opt_str line_id);
                ("policy_id", opt_str policy_id);
                ("type", opt_str (_get_text (ET.find (ET.Child "Type") limit) None));
                ("amount", _get_float (ET.find (ET.Child "Amount") limit) VNone);
                ("i_value", opt_str (_get_text (ET.find (ET.Child "iValue") limit) None));
                ("f_value", _get_float (ET.find (ET.Child "fValue") limit) VNone);
                ("scope", opt_str (_get_text (ET.find (ET.Child "Scope") limit) None));
                ("source_file", VStr source_file);
                ("_extracted_at", VStr extracted_at) ] in
              (records ++ [record], limit_counter)))))
      ([], 0) in
  records.

Definition _extract_deductibles (root : ET.Element)
    (source_file extracted_at : string) : list row :=
  let '(records, deductible_counter) :=
    for_each (ET.findall (ET.Descendant "data") root) (λ data,
      for_each (ET.findall (ET.Child "policy") data) (λ policy,
        let policy_id := ET.get policy "id" in
        for_each (ET.findall (ET.Child "line") policy) (λ line,
          let line_id := ET.get line "id" in
          for_each (ET.findall (ET.Child "deductible") line)
            (λ deductible '(records, deductible_counter),
              let deductible_id := ET.get deductible "id" in
              let '(deductible_counter, deductible_id) :=
                if truthy deductible_id
                then (deductible_counter, deductible_id)
                else
                  let deductible_counter := S deductible_counter in
                  (deductible_counter,
                   Some ("ded_" +:+ py_str policy_id +:+ "_" +:+ py_str line_id
                         +:+ "_" +:+ pretty deductible_counter)) in
              let record := dict [
                ("deductible_id", opt_str deductible_id);
                ("line_id", opt_str line_id);
                ("policy_id", opt_str policy_id);
                ("type", opt_str (_get_text (ET.find (ET.Child "Type") deductible) None));
                ("amount", _get_float (ET.find (ET.Child "Amount") deductible) VNone);
                ("i_value", opt_str (_get_text (ET.find (ET.Child "iValue") deductible) None));
                ("f_value", _get_float (ET.find (ET.Child "fValue") deductible) VNone);
                ("scope", opt_str (_get_text (ET.find (ET.Child "Scope") deductible) None));
                ("source_file", VStr source_file);
                ("_extracted_at", VStr extracted_at) ] in
              (records ++ [record], deductible_counter)))))
      ([], 0) in
  records.

Definition _extract_locations (root : ET.Element)
    (source_file extracted_at : string) : list row :=
  for_each (ET.findall (ET.Descendant "data") root) (λ data,
    let policy := ET.find (ET.Child "policy") data in
    let policy_id := policy ≫= λ policy, ET.get policy "id" in
    for_each (ET.findall (ET.Descendant "account") data) (λ account,
      let account_id := ET.get account "id" in
      for_each (ET.findall (ET.Child "location") account) (λ location records,
        let location_id := ET.get location "id" in
        let record := dict [
          ("location_id", opt_str location_id);
          ("account_id", opt_str account_id);
          ("policy_id", opt_str policy_id);
          ("deleted", opt_str (ET.get location "deleted"));
          ("source_file", VStr source_file);
          ("_extracted_at", VStr extracted_at) ] in
        records ++ [record])))
    [].

Definition _extract_buildings (root : ET.Element)
    (source_file extracted_at : string) : list row :=
  for_each (ET.findall (ET.Descendant "data") root) (λ data,
    let policy := ET.find (ET.Child "policy") data in
    let policy_id := policy ≫= λ policy, ET.get policy "id" in
    for_each (ET.findall (ET.Descendant "account") data) (λ account records,
      let account_id := ET.get account "id" in
      (* direct children of the account *)
      let records :=
        for_each (ET.findall (ET.Child "building") account) (λ building records,
          let building_id := ET.get building "id" in
          let location := ET.find (ET.Child "location") account in
          let location_id := location ≫= λ location, ET.get location "id" in
          let record := dict [
            ("building_id", opt_str building_id);
            ("location_id", opt_str location_id);
            ("policy_id", opt_str policy_id);
            ("source_file", VStr source_file);
            ("_extracted_at", VStr extracted_at) ] in
          records ++ [record])
          records in
      (* buildings under locations *)
      for_each (ET.findall (ET.Child "location") account) (λ location,
        let location_id := ET.get location "id" in
        for_each (ET.findall (ET.Child "building") location) (λ building records,
          let building_id := ET.get building "id" in
          let record := dict [
            ("building_id", opt_str building_id);
            ("location_id", opt_str location_id);
            ("policy_id", opt_str policy_id);
            ("source_file", VStr source_file);
            ("_extracted_at", VStr extracted_at) ] in
          records ++ [record]))
        records))
    [].

Definition _extract_occupancies (root : ET.Element)
    (source_file extracted_at : string) : list row :=
  for_each (ET.findall (ET.Descendant "data") root) (λ data,
    let policy := ET.find (ET.Child "policy") data in
    let policy_id := policy ≫= λ policy, ET.get policy "id" in
    for_each (ET.findall (ET.Descendant "account") data) (λ account records,
      let account_id := ET.get account "id" in
      (* direct children of the account *)
      let records :=
        for_each (ET.findall (ET.Child "occupancy") account) (λ occupancy records,
          let occupancy_id := ET.get occupancy "id" in
          let location := ET.find (ET.Child "location") account in
          let location_id := location ≫= λ location, ET.get location "id" in
          let record := dict [
            ("occupancy_id", opt_str occupancy_id);
            ("location_id", opt_str location_id);
            ("policy_id", opt_str policy_id);
            ("source_file", VStr source_file);
            ("_extracted_at", VStr extracted_at) ] in
          records ++ [record])
          records in
      (* occupancies under locations *)
      for_each (ET.findall (ET.Child "location") account) (λ location,
        let location_id := ET.get location "id" in
        for_each (ET.findall (ET.Child "occupancy") location)
          (λ occupancy records,
            let occupancy_id := ET.get occupancy "id" in
            let record := dict [
              ("occupancy_id", opt_str occupancy_id);
              ("location_id", opt_str location_id);
              ("policy_id", opt_str policy_id);
              ("source_file", VStr source_file);
              ("_extracted_at", VStr extracted_at) ] in
            records ++ [record]))
        records))
    [].

Definition _extract_accounts (root : ET.Element)
    (source_file extracted_at : string) : list row :=
  for_each (ET.findall (ET.Descendant "data") root) (λ data,
    let policy := ET.find (ET.Child "policy") data in
    let policy_id := policy ≫= λ policy, ET.get policy "id" in
    for_each (ET.findall (ET.Descendant "account") data) (λ account records,
      let account_id := ET.get account "id" in
      let record := dict [
        ("account_id", opt_str account_id);
        ("policy_id", opt_str policy_id);
        ("name", opt_str (_get_text (ET.find (ET.Child "Name") account) None));
        ("dba", opt_str (_get_text (ET.find (ET.Child "DBA") account) None));
        ("entity_type", opt_str (_get_text (ET.find (ET.Child "EntityType") account) None));
        ("brief_description", opt_str (_get_text (ET.find (ET.Child "BriefDescription") account) None));
        ("primary_phone", opt_str (_get_text (ET.find (ET.Child "PrimaryPhone") account) None));
        ("fax", opt_str (_get_text (ET.find (ET.Child "Fax") account) None));
        ("email", opt_str (_get_text (ET.find (ET.Child "Email") account) None));
        ("same_as_mailing_address", opt_str (_get_text (ET.find (ET.Child "SameAsMailingAddress") account) None));
        ("sic_code", opt_str (_get_text (ET.find (ET.Child "SICCode") account) None));
        ("source_file", VStr source_file);
        ("_extracted_at", VStr extracted_at) ] in
      records ++ [record]))
    [].

Definition _extract_addresses (root : ET.Element)
    (source_file extracted_at : string) : list row :=
  for_each (ET.findall (ET.Descendant "data") root) (λ data,
    let policy := ET.find (ET.Child "policy") data in
    let policy_id := policy ≫= λ policy, ET.get policy "id" in
    for_each (ET.findall (ET.Descendant "account") data) (λ account records,
      let account_id := ET.get account "id" in
      (* account-level addresses *)
      let records :=
        for_each (ET.findall (ET.Child "address") account) (λ address records,
          let address_id := ET.get address "id" in
          let record := dict [
            ("address_id", opt_str address_id);
            ("location_id", VNone);
            ("account_id", opt_str account_id);
            ("policy_id", opt_str policy_id);
            ("latitude", opt_str (_get_text (ET.find (ET.Child "Latitude") address) None));
            ("longitude", opt_str (_get_text (ET.find (ET.Child "Longitude") address) None));
            ("last_verified", opt_str (_get_text (ET.find (ET.Child "LastVerified") address) None));
            ("source_file", VStr source_file);
            ("_extracted_at", VStr extracted_at) ] in
          records ++ [record])
          records in
      (* location-level addresses *)
      for_each (ET.findall (ET.Child "location") account) (λ location,
        let location_id := ET.get location "id" in
        for_each (ET.findall (ET.Child "address") location) (λ address records,
          let address_id := ET.get address "id" in
          let record := dict [
            ("address_id", opt_str address_id);
            ("location_id", opt_str location_id);
            ("account_id", opt_str account_id);
            ("policy_id", opt_str policy_id);
            ("latitude", opt_str (_get_text (ET.find (ET.Child "Latitude") address) None));
            ("longitude", opt_str (_get_text (ET.find (ET.Child "Longitude") address) None));
            ("last_verified", opt_str (_get_text (ET.find (ET.Child "LastVerified") address) None));
            ("source_file", VStr source_file);
            ("_extracted_at", VStr extracted_at) ] in
          records ++ [record]))
        records))
    [].

Definition _extract_underwriter_referrals (root : ET.Element)
    (source_file extracted_at : string) : list row :=
  let '(records, referral_counter) :=
    for_each (ET.findall (ET.Descendant "data") root) (λ data,
      for_each (ET.findall (ET.Child "policy") data) (λ policy,
        let policy_id := ET.get policy "id" in
        for_each (ET.findall (ET.Descendant "UnderwriterReferrals") policy)
          (λ referrals,
            for_each (ET.findall (ET.Child "UnderwriterReferral") referrals)
              (λ referral '(records, referral_counter),
                let referral_id := ET.get referral "id" in
                let '(referral_counter, referral_id) :=
                  if truthy referral_id then (referral_counter, referral_id)
                  else
                    let referral_counter := S referral_counter in
                    (referral_counter,
                     Some ("ref_" +:+ py_str policy_id
                           +:+ "_" +:+ pretty referral_counter)) in
                let record := dict [
                  ("referral_id", opt_str referral_id);
                  ("policy_id", opt_str policy_id);
                  ("source_file", VStr source_file);
                  ("_extracted_at", VStr extracted_at) ] in
                (records ++ [record], referral_counter)))))
      ([], 0) in
  records.

Definition _extract_tax_surcharges (root : ET.Element)
    (source_file extracted_at : string) : list row :=
  let '(records, tax_counter) :=
    for_each (ET.findall (ET.Descendant "data") root) (λ data,
      for_each (ET.findall (ET.Child "policy") data) (λ policy state,
        let policy_id := ET.get policy "id" in
        (* policy-level tax surcharges *)
        let state :=
          for_each (ET.findall (ET.Child "stateTaxSurcharge") policy)
            (λ tax '(records, tax_counter),
              let tax_counter := S tax_counter in
              let tax_id :=
                if truthy (ET.get tax "id") then ET.get tax "id"
                else Some ("tax_" +:+ py_str policy_id
                           +:+ "_" +:+ pretty tax_counter) in
              let record := dict [
                ("tax_surcharge_id", opt_str tax_id);
                ("policy_id", opt_str policy_id);
                ("line_id", VNone);
                ("tax_state", opt_str (_get_text (ET.find (ET.Child "TaxState") tax) None));
                ("amount", _get_float (ET.find (ET.Child "Amount") tax) VNone);
                ("written", _get_float (Some tax) (opt_str (ET.get tax "written")));
                ("change", _get_float (Some tax) (opt_str (ET.get tax "change")));
                ("type", opt_str (_get_text (ET.find (ET.Child "Type") tax) None));
                ("source_file", VStr source_file);
                ("_extracted_at", VStr extracted_at) ] in
              (records ++ [record], tax_counter))
            state in
        (* line-level tax surcharges *)
        for_each (ET.findall (ET.Child "line") policy) (λ line,
          let line_id := ET.get line "id" in
          for_each (ET.findall (ET.Child "lineStateTaxSurcharge") line)
            (λ tax '(records, tax_counter),
              let tax_counter := S tax_counter in
              let tax_id :=
                if truthy (ET.get tax "id") then ET.get tax "id"
                else Some ("tax_" +:+ py_str policy_id +:+ "_" +:+ py_str line_id
                           +:+ "_" +:+ pretty tax_counter) in
              let record := dict [
                ("tax_surcharge_id", opt_str tax_id);
                ("policy_id", opt_str policy_id);
                ("line_id", opt_str line_id);
                ("tax_state", opt_str (_get_text (ET.find (ET.Child "TaxState") tax) None));
                ("amount", _get_float (ET.find (ET.Child "Amount") tax) VNone);
                ("written", _get_float (Some tax) (opt_str (ET.get tax "written")));
                ("change", _get_float (Some tax) (opt_str (ET.get tax "change")));
                ("type", opt_str (_get_text (ET.find (ET.Child "Type") tax) None));
                ("source_file", VStr source_file);
                ("_extracted_at", VStr extracted_at) ] in
              (records ++ [record], tax_counter)))
          state))
      ([], 0) in
  records.

End Extractor.

(** ** The connector *)

Record LakeflowConnect := {
  file_path : string;
  file_pattern : string;
}.

Definition __init__ (options : gmap string string) : result LakeflowConnect :=
  let file_path := default "" (options !! "file_path") in
  let file_pattern := default "*.xml" (options !! "file_pattern") in
  if negb (nonempty file_path)
  then Raise (ValueError "file_path option is required")
  else Ok {| file_path := file_path; file_pattern := file_pattern |}.

Definition _get_xml_files (self : LakeflowConnect) (w : World) : list string :=
  let pattern := os_path_join (file_path self) (file_pattern self) in
  glob w pattern.

Definition _get_file_modified_time (w : World) (file_path : string) : string :=
  getmtime_iso w file_path.

Section Connector.

Context `{Builtins}.

(** The [if]/[elif] chain of [_extract_table_records]: the extraction rule
    of the requested table, run on one parsed document.  No branch is taken
    for a name outside the catalog. *)
Definition extract_rule (table_name : string) (root : ET.Element)
    (source_file file_mtime extracted_at : string) : list row :=
  if bool_decide (table_name = "policies") then
    _extract_policies root source_file file_mtime extracted_at
  else if bool_decide (table_name = "lines") then
    _extract_lines root source_file extracted_at
  else if bool_decide (table_name = "coverages") then
    _extract_coverages root source_file extracted_at
  else if bool_decide (table_name = "exposures") then
    _extract_exposures root source_file extracted_at
  else if bool_decide (table_name = "limits") then
    _extract_limits root source_file extracted_at
  else if bool_decide (table_name = "deductibles") then
    _extract_deductibles root source_file extracted_at
  else if bool_decide (table_name = "locations") then
    _extract_locations root source_file extracted_at
  else if bool_decide (table_name = "buildings") then
    _extract_buildings root source_file extracted_at
  else if bool_decide (table_name = "occupancies") then
    _extract_occupancies root source_file extracted_at
  else if bool_decide (table_name = "accounts") then
    _extract_accounts root source_file extracted_at
  else if bool_decide (table_name = "addresses") then
    _extract_addresses root source_file extracted_at
  else if bool_decide (table_name = "underwriter_referrals") then
    _extract_underwriter_referrals root source_file extracted_at
  else if bool_decide (table_name = "tax_surcharges") then
    _extract_tax_surcharges root source_file extracted_at
  else [].

(** The body of the [try] statement for one file. *)
Definition extract_file (w : World) (table_name extracted_at : string)
    (file_path file_mtime : string) (records : list row)
  : result (list row) :=
  match ET_parse w file_path with
  | Raise e => Raise e
  | Ok root =>
      let source_file := basename file_path in
      Ok (records
          ++ extract_rule table_name root source_file file_mtime extracted_at)
  end.

(** The loop state is [Ok records] while the loop runs and [Raise e] once
    an exception other than [ET.ParseError] has left it.  The diagnostic
    printed by the handler is not part of the result. *)
Definition _extract_table_records (w : World) (table_name : string)
    (files : list (string * string)) : result (list row) :=
  let extracted_at := utcnow_iso w in
  for_each files (λ '(file_path, file_mtime) state,
    match state with
    | Raise e => Raise e
    | Ok records =>
        match extract_file w table_name extracted_at
                file_path file_mtime records with
        | Ok records => Ok records
        | Raise ParseError => Ok records (* print(...); continue *)
        | Raise e => Raise e
        end
    end)
    (Ok []).

(** The selection loop of [read_table]: the files to process and the
    running maximum of their modification times. *)
Definition select_files (w : World) (xml_files : list string)
    (last_modified_time : string) : list (string * string) * string :=
  for_each xml_files (λ file_path '(files_to_process, max_modified_time),
    let file_mtime := _get_file_modified_time w file_path in
    if negb (nonempty last_modified_time)
       || String.ltb last_modified_time file_mtime
    then
      (files_to_process ++ [(file_path, file_mtime)],
       if String.ltb max_modified_time file_mtime
       then file_mtime else max_modified_time)
    else (files_to_process, max_modified_time))
    ([], last_modified_time).

Definition read_table (self : LakeflowConnect) (w : World)
    (table_name : string) (start_offset : gmap string string)
    (table_options : gmap string string)
  : result (list row * gmap string string) :=
  let last_modified_time :=
    default "" (start_offset !! "last_modified_time") in
  let xml_files := _get_xml_files self w in
  match xml_files with
  | [] => Ok ([], {[ "last_modified_time" := last_modified_time ]})
  | _ =>
      let '(files_to_process, max_modified_time) :=
        select_files w xml_files last_modified_time in
      match _extract_table_records w table_name files_to_process with
      | Raise e => Raise e
      | Ok records =>
          let new_offset :=
            {[ "last_modified_time" := max_modified_time ]} in
          Ok (records, new_offset)
      end
  end.

End Connector.

(** ** Primary keys of a record *)

Section Keys.

Context `{Builtins}.

(** The values a record holds in the given columns. *)
Definition columns_of (cols : list string) (r : row) : list (option value) :=
  (λ c, r !! c) <$> cols.

(** The primary-key tuple of a record of the table, over the columns
    [read_table_metadata] declares. *)
Definition pk_tuple (table_name : string) (r : row) : list (option value) :=
  match metadata !! table_name with
  | Some m => columns_of (primary_keys m) r
  | None => []
  end.

End Keys.

(** ** An executable instance of the builtins and example documents *)

Module Examples.

Fixpoint lstrip (s : string) : string :=
  match s with
  | "" => ""
  | String a r => if Ascii.is_space a then lstrip r else s
  end.

Definition ascii_strip (s : string) : string :=
  String.rev (lstrip (String.rev (lstrip s))).

Definition is_digit (a : ascii) : bool :=
  match Ascii.is_nat a with
  | Some _ => true
  | None => false
  end.

(** Unsigned decimal literals: digits, optionally followed by a point and
    digits. *)
Fixpoint decimal_literal (seen_digit seen_point : bool) (s : string) : bool :=
  match s with
  | "" => seen_digit
  | String a r =>
      if is_digit a then decimal_literal true seen_point r
      else if bool_decide (a = "."%char) && seen_digit && negb seen_point
      then decimal_literal false true r
      else false
  end.

(** Enough of the builtins to run the rules on the documents below: white
    space is ASCII white space, and a float is an unsigned decimal literal,
    kept as its text. *)
Definition decimal_builtins : Builtins := {|
  pyfloat := string;
  str_strip := ascii_strip;
  float_of_str s := if decimal_literal false false s then Some s else None;
|}.

Definition node (tag : string) (attrs : list (string * string))
    (children : list ET.Element) : ET.Element :=
  ET.mkElement tag (list_to_map attrs) None children.

Definition leaf (tag text : string) : ET.Element :=
  ET.mkElement tag ∅ (Some text) [].

Definition connector : LakeflowConnect :=
  {| file_path := "/Volumes/main/duck_creek/in"; file_pattern := "*.xml" |}.

(** One policy, one line, one coverage without an [id] attribute. *)
Definition coverage_doc : ET.Element :=
  node "session" [("id", "S1")] [
    node "data" [] [
      node "policy" [("id", "P1")] [
        node "line" [("id", "L1")] [
          node "coverage" [] [ leaf "Type" "GL" ] ] ] ] ].

(** Two files holding the same document. *)
Definition two_files : World := {|
  glob _ := [ "/Volumes/main/duck_creek/in/a.xml";
              "/Volumes/main/duck_creek/in/b.xml" ];
  getmtime_iso p :=
    if bool_decide (p = "/Volumes/main/duck_creek/in/a.xml")
    then "2024-03-01T10:00:00" else "2024-03-02T10:00:00";
  xml_parse _ := Ok coverage_doc;
  utcnow_iso := "2024-03-05T08:00:00";
|}.

(** A coverage with an explicit identifier of the synthesized shape, next
    to a coverage without identifier. *)
Definition clash_doc : ET.Element :=
  node "session" [("id", "S1")] [
    node "data" [] [
      node "policy" [("id", "P1")] [
        node "line" [("id", "L1")] [
          node "coverage" [("id", "cov_P1_L1_1")] [];
          node "coverage" [] [] ] ] ] ].

(** Two coverages without identifier under one line. *)
Definition two_coverages_doc : ET.Element :=
  node "session" [("id", "S1")] [
    node "data" [] [
      node "policy" [("id", "P1")] [
        node "line" [("id", "L1")] [
          node "coverage" [] [];
          node "coverage" [] [] ] ] ] ].

(** An account with a location and a building that is a direct child of
    the account. *)
Definition direct_building_account : ET.Element :=
  node "account" [("id", "A1")] [
    node "location" [("id", "LOC1")] [];
    node "building" [("id", "B1")] [] ].

Definition direct_building_doc : ET.Element :=
  node "session" [("id", "S1")] [
    node "data" [] [
      node "policy" [("id", "P1")] [];
      direct_building_account ] ].

(** An account without location, with a direct-child building, and an
    account whose building is nested under a location. *)
Definition direct_account : ET.Element :=
  node "account" [("id", "A1")] [ node "building" [("id", "B1")] [] ].

Definition nested_location : ET.Element :=
  node "location" [("id", "LOC2")] [ node "building" [("id", "B1")] [] ].

Definition nested_account : ET.Element :=
  node "account" [("id", "A2")] [ nested_location ].

Definition placements_data : ET.Element :=
  node "data" [] [
    node "policy" [("id", "P1")] []; direct_account; nested_account ].

Definition placements_doc : ET.Element :=
  node "session" [("id", "S1")] [ placements_data ].

(** A multi-policy batch file: each policy holds its own account. *)
Definition batch_doc : ET.Element :=
  node "session" [("id", "S1")] [
    node "data" [] [
      node "policy" [("id", "P1")] [ node "account" [("id", "A1")] [] ];
      node "policy" [("id", "P2")] [ node "account" [("id", "A2")] [] ] ] ].

(** A line whose [written] and [change] attributes hold a number and a
    text that is no number. *)
Definition line_doc : ET.Element :=
  node "session" [("id", "S1")] [
    node "data" [] [
      node "policy" [("id", "P1")] [
        node "line" [("id", "L1"); ("written", "100.50"); ("change", "abc")]
          [] ] ] ].

(** Two files, the older one not well-formed. *)
Definition broken_file_world : World := {|
  glob _ := [ "/Volumes/main/duck_creek/in/a.xml";
              "/Volumes/main/duck_creek/in/b.xml" ];
  getmtime_iso p :=
    if bool_decide (p = "/Volumes/main/duck_creek/in/a.xml")
    then "2024-03-01T10:00:00" else "2024-03-02T10:00:00";
  xml_parse p :=
    if bool_decide (p = "/Volumes/main/duck_creek/in/a.xml")
    then Raise ParseError else Ok coverage_doc;
  utcnow_iso := "2024-03-05T08:00:00";
|}.


End Examples.

(** ** Specification-level notions used by the statements *)

(** [mtime] is strictly greater than [watermark] in the order of [str]. *)
Definition strictly_newer (watermark mtime : string) : Prop :=
  (watermark ≤ mtime)%string ∧ watermark ≠ mtime.

#[global] Instance strictly_newer_dec watermark mtime :
  Decision (strictly_newer watermark mtime).
Proof. unfold strictly_newer. apply _. Defined.

(** The invariant of the selection loop of [read_table]. *)
Definition selection_inv (last_modified_time : string)
    (state : list (string * string) * string) : Prop :=
  let '(files_to_process, max_modified_time) := state in
  (last_modified_time ≤ max_modified_time)%string
  ∧ (files_to_process = [] → max_modified_time = last_modified_time)
  ∧ (files_to_process ≠ [] → max_modified_time ∈ files_to_process.*2)
  ∧ (∀ m, m ∈ files_to_process.*2 → (m ≤ max_modified_time)%string).

(** The tree of a file that parses. *)
Definition xml_root (w : World) (file_path : string) : option ET.Element :=
  match ET_parse w file_path with
  | Ok root => Some root
  | Raise _ => None
  end.


(** The exception that leaves the loop of [_extract_table_records] over the
    files: the first one, in the order of the files, that parsing raises and
    that is not [ET.ParseError]; [None] when there is no such exception. *)
Fixpoint first_failure (w : World) (files : list (string * string))
  : option exn :=
  match files with
  | [] => None
  | file :: rest =>
      match ET_parse w file.1 with
      | Ok _ | Raise ParseError => first_failure w rest
      | Raise e => Some e
      end
  end.

(** What a call gives: the exception that left it, or else its value. *)
Definition outcome {A} (failure : option exn) (a : A) : result A :=
  match failure with
  | Some e => Raise e
  | None => Ok a
  end.

Section SpecNotions.

Context `{Builtins}.

(** The rows one selected file contributes to a call: those of the rule run
    on its tree, none when the file does not parse. *)
Definition rows_of_file (w : World) (table_name : string)
    (file : string * string) : list row :=
  match xml_root w file.1 with
  | Some root =>
      extract_rule table_name root (basename file.1) file.2 (utcnow_iso w)
  | None => []
  end.

End SpecNotions.

Section RowNotions.

Context `{Builtins}.

(** The shape of a row of the [buildings] table. *)
Definition building_row (building_id location_id policy_id : option string)
    (source_file extracted_at : string) : row :=
  dict [
    ("building_id", opt_str building_id);
    ("location_id", opt_str location_id);
    ("policy_id", opt_str policy_id);
    ("source_file", VStr source_file);
    ("_extracted_at", VStr extracted_at) ].

(** The shape of a row of the [occupancies] table. *)
Definition occupancy_row (occupancy_id location_id policy_id : option string)
    (source_file extracted_at : string) : row :=
  dict [
    ("occupancy_id", opt_str occupancy_id);
    ("location_id", opt_str location_id);
    ("policy_id", opt_str policy_id);
    ("source_file", VStr source_file);
    ("_extracted_at", VStr extracted_at) ].

End RowNotions.

(** The identifier of the first [policy] child of a [data] node. *)
Definition first_policy_id (data : ET.Element) : option string :=
  ET.find (ET.Child "policy") data ≫= λ policy, ET.get policy "id".

(** The identifier of the first [location] child of an account. *)
Definition first_location_id (account : ET.Element) : option string :=
  ET.find (ET.Child "location") account ≫= λ location, ET.get location "id".

(** The columns stamped on every row by the call: origin file, file
    modification time and extraction timestamp. *)
Definition provenance_columns : list string :=
  [ "source_file"; "file_modified_time"; "_extracted_at" ].

(** The foreign-key columns of each table, after the table of output entities
    of the design. *)
Definition foreign_keys : gmap string (list string) :=
  list_to_map [
    ("policies", []);
    ("lines", ["policy_id"]);
    ("coverages", ["line_id"; "policy_id"]);
    ("exposures", ["line_id"; "policy_id"]);
    ("limits", ["line_id"; "policy_id"]);
    ("deductibles", ["line_id"; "policy_id"]);
    ("locations", ["account_id"; "policy_id"]);
    ("buildings", ["location_id"; "policy_id"]);
    ("occupancies", ["location_id"; "policy_id"]);
    ("accounts", ["policy_id"]);
    ("addresses", ["location_id"; "account_id"; "policy_id"]);
    ("underwriter_referrals", ["policy_id"]);
    ("tax_surcharges", ["line_id"; "policy_id"])
  ].

(** The primary-key columns the metadata interface declares for the table,
    followed by its foreign-key columns. *)
Definition key_columns (table_name : string) : list string :=
  match metadata !! table_name with
  | Some m => primary_keys m ++ default [] (foreign_keys !! table_name)
  | None => []
  end.

Section KeyNotions.

Context `{Builtins}.

(** The primary and foreign keys of a row of the table. *)
Definition key_tuple (table_name : string) (r : row) : list (option value) :=
  columns_of (key_columns table_name) r.

(** Two rows that agree on every column but the provenance columns. *)
Definition same_business_columns (r1 r2 : row) : Prop :=
  ∀ c, c ∉ provenance_columns → r1 !! c = r2 !! c.

(** Two states of a loop with a counter: equal counters, rows that agree
    on the business columns. *)
Definition same_business_state (s1 s2 : list row * nat) : Prop :=
  s1.2 = s2.2 ∧ Forall2 same_business_columns s1.1 s2.1.

End KeyNotions.

(** ** Synthesized identifiers *)

(** A node visited by a rule that synthesizes identifiers: the prefix of the
    identifier it would be given (entity tag and ancestor identifiers) and
    the element. *)
Definition visited : Type := string * ET.Element.

(** The counter after a node: rules with [always = true] advance it at every
    node, the others only at a node without identifier. *)
Definition next_counter (always : bool) (node : ET.Element) (c : nat) : nat :=
  if always || negb (truthy (ET.get node "id")) then S c else c.

(** The identifier of a node, given the counter after it. *)
Definition assign (n : visited) (c : nat) : option string :=
  if truthy (ET.get n.2 "id") then ET.get n.2 "id"
  else Some (n.1 +:+ "_" +:+ pretty c).

(** The identifiers of the nodes of one file in visiting order, the counter
    starting from [c]. *)
Fixpoint assigned_ids (always : bool) (c : nat) (nodes : list visited)
  : list (option string) :=
  match nodes with
  | [] => []
  | n :: rest =>
      let c := next_counter always n.2 c in
      assign n c :: assigned_ids always c rest
  end.

Fixpoint final_counter (always : bool) (c : nat) (nodes : list visited) : nat :=
  match nodes with
  | [] => c
  | n :: rest => final_counter always (next_counter always n.2 c) rest
  end.

(** The nodes visited by the rules of the children of a line ([coverage],
    [exposure], [limit], [deductible]), in visiting order. *)
Definition line_children (child_tag prefix : string) (root : ET.Element)
  : list visited :=
  data ← ET.findall (ET.Descendant "data") root;
  policy ← ET.findall (ET.Child "policy") data;
  line ← ET.findall (ET.Child "line") policy;
  node ← ET.findall (ET.Child child_tag) line;
  [ (prefix +:+ py_str (ET.get policy "id")
       +:+ "_" +:+ py_str (ET.get line "id"), node) ].

Definition coverage_nodes : ET.Element → list visited :=
  line_children "coverage" "cov_".
Definition exposure_nodes : ET.Element → list visited :=
  line_children "exposure" "exp_".
Definition limit_nodes : ET.Element → list visited :=
  line_children "limit" "lim_".
Definition deductible_nodes : ET.Element → list visited :=
  line_children "deductible" "ded_".

Definition referral_nodes (root : ET.Element) : list visited :=
  data ← ET.findall (ET.Descendant "data") root;
  policy ← ET.findall (ET.Child "policy") data;
  referrals ← ET.findall (ET.Descendant "UnderwriterReferrals") policy;
  referral ← ET.findall (ET.Child "UnderwriterReferral") referrals;
  [ ("ref_" +:+ py_str (ET.get policy "id"), referral) ].

Definition tax_nodes (root : ET.Element) : list visited :=
  data ← ET.findall (ET.Descendant "data") root;
  policy ← ET.findall (ET.Child "policy") data;
  (tax ← ET.findall (ET.Child "stateTaxSurcharge") policy;
   [ ("tax_" +:+ py_str (ET.get policy "id"), tax) ])
  ++ (line ← ET.findall (ET.Child "line") policy;
      tax ← ET.findall (ET.Child "lineStateTaxSurcharge") line;
      [ ("tax_" +:+ py_str (ET.get policy "id")
           +:+ "_" +:+ py_str (ET.get line "id"), tax) ]).

(** The part of a string after its last underscore. *)
Fixpoint has_underscore (s : string) : bool :=
  match s with
  | "" => false
  | String a r => bool_decide (a = "_"%char) || has_underscore r
  end.

Fixpoint last_segment (s : string) : string :=
  match s with
  | "" => ""
  | String a r =>
      if has_underscore r then last_segment r
      else if bool_decide (a = "_"%char) then r else s
  end.

Section SynthNotions.

Context `{Builtins}.

(** The state of a rule with a counter follows the nodes visited so far:
    the identifier column of the rows holds the assigned identifiers, and
    the counter is the one reached. *)
Definition follows (id_column : string) (always : bool)
    (state : list row * nat) (nodes : list visited) : Prop :=
  (λ r : row, r !! id_column) <$> state.1
  = (λ o, Some (opt_str o)) <$> assigned_ids always 0 nodes
  ∧ state.2 = final_counter always 0 nodes.

(** The identifier column of the rows holds, in order, the identifiers
    assigned to the visited nodes by a counter that starts from zero. *)
Definition ids_follow_counter (id_column : string) (always : bool)
    (nodes : list visited) (records : list row) : Prop :=
  (λ r : row, r !! id_column) <$> records
  = (λ o, Some (opt_str o)) <$> assigned_ids always 0 nodes.

(** The rows of the nodes without identifier have pairwise distinct
    primary keys. *)
Definition synthesized_keys_distinct (table_name : string)
    (nodes : list visited) (records : list row) : Prop :=
  length records = length nodes
  ∧ ∀ i j ni nj ri rj,
      i ≠ j →
      nodes !! i = Some ni → nodes !! j = Some nj →
      truthy (ET.get ni.2 "id") = false →
      truthy (ET.get nj.2 "id") = false →
      records !! i = Some ri → records !! j = Some rj →
      pk_tuple table_name ri ≠ pk_tuple table_name rj.

End SynthNotions.

(** A loop body that keeps the rows it is given. *)
Definition keeps {A B} (body : A → list B → list B) : Prop :=
  ∀ x s r, r ∈ s → r ∈ body x s.

(** ** Columns of a record *)

(** The column names the schema interface declares for a table. *)
Definition schema_columns (table_name : string) : list string :=
  field_name <$> default [] (schemas !! table_name).

Section ColumnNotions.

Context `{Builtins}.

(** The field set of a record is exactly the given columns. *)
Definition has_columns (cols : list string) (r : row) : Prop :=
  dom r = list_to_set cols.

End ColumnNotions.

(** ** Provenance and cursor of a record *)

Section ProvenanceNotions.

Context `{Builtins}.

(** The record carries the base name of the file it was read from and the
    timestamp of the call. *)
Definition stamped (source_file extracted_at : string) (r : row) : Prop :=
  r !! "source_file" = Some (VStr source_file)
  ∧ r !! "_extracted_at" = Some (VStr extracted_at).

(** The record holds the string [c] in the column [column]. *)
Definition holds_str (column c : string) (r : row) : Prop :=
  r !! column = Some (VStr c).

End ProvenanceNotions.

(** The file is selected by a call whose incoming watermark is
    [last_modified_time]. *)
Definition selected_by (w : World) (last_modified_time p : string) : Prop :=
  last_modified_time = ""
  ∨ strictly_newer last_modified_time (getmtime_iso w p).

(** The same directory listing and modification times, other file contents
    and another clock. *)
Definition with_contents (w : World)
    (xml_parse' : string → result ET.Element) (utcnow_iso' : string)
  : World :=
  {| glob := glob w; getmtime_iso := getmtime_iso w;
     xml_parse := xml_parse'; utcnow_iso := utcnow_iso' |}.

(** The same directory and files at another time of the clock. *)
Definition with_clock (w : World) (utcnow_iso' : string) : World :=
  with_contents w (xml_parse w) utcnow_iso'.

(** ** The catalog *)

(** The declaration of a column in a schema, [None] when the schema has no
    such column. *)
Definition schema_field (schema : StructType) (name : string)
  : option StructField :=
  head (filter (λ f, field_name f = name) schema).

(** What a schema and the metadata of the same table have to do with each
    other: the primary keys are distinct columns of the schema, declared as
    non-nullable strings, and the cursor is a string column of the schema. *)
Definition keys_declared (schema : StructType) (m : TableMetadata) : Prop :=
  NoDup (field_name <$> schema)
  ∧ primary_keys m ≠ []
  ∧ NoDup (primary_keys m)
  ∧ Forall (λ k, schema_field schema k = Some (mkField k StringType false))
      (primary_keys m)
  ∧ field_type <$> schema_field schema (cursor_field m) = Some StringType
  ∧ ingestion_type m = "cdc".

(** ** Identifiers and references between the tables *)

Section ReferenceNotions.

Context `{Builtins}.

(** The record holds a non-empty string in the column. *)
Definition holds_nonempty_str (column : string) (r : row) : Prop :=
  ∃ s, r !! column = Some (VStr s) ∧ s ≠ "".

(** The column of the record holds null. *)
Definition holds_null (column : string) (r : row) : Prop :=
  r !! column = Some VNone.

(** Some record of [parents] holds, in each of the columns, the value the
    record [r] holds there. *)
Definition refers_to (columns : list string) (parents : list row) (r : row)
  : Prop :=
  ∃ r', r' ∈ parents ∧ columns_of columns r' = columns_of columns r.

End ReferenceNotions.

(** The record carries, as [policy_id], the identifier of the first [policy]
    child of one of the [data] nodes of the document. *)
Definition carries_first_policy `{Builtins} (root : ET.Element) (r : row)
  : Prop :=
  ∃ data, data ∈ ET.findall (ET.Descendant "data") root
          ∧ r !! "policy_id" = Some (opt_str (first_policy_id data)).

(** Some record of [rows] holds the values [values] in the columns
    [columns]. *)
Definition has_record `{Builtins} (columns : list string)
    (values : list value) (rows : list row) : Prop :=
  ∃ r, r ∈ rows ∧ columns_of columns r = Some <$> values.

(** ** Records in document order *)

(** The identifiers of the nodes a rule visits, node by node in visiting
    order: for each node, the values of the key columns of its record. *)
Definition policy_keys (root : ET.Element) : list (list (option string)) :=
  data ← ET.findall (ET.Descendant "data") root;
  policy ← ET.findall (ET.Child "policy") data;
  [ [ET.get policy "id"; ET.get root "id"] ].

Definition line_keys (root : ET.Element) : list (list (option string)) :=
  data ← ET.findall (ET.Descendant "data") root;
  policy ← ET.findall (ET.Child "policy") data;
  line ← ET.findall (ET.Child "line") policy;
  [ [ET.get line "id"; ET.get policy "id"] ].

Definition account_keys (root : ET.Element) : list (list (option string)) :=
  data ← ET.findall (ET.Descendant "data") root;
  account ← ET.findall (ET.Descendant "account") data;
  [ [ET.get account "id"; first_policy_id data] ].

Definition location_keys (root : ET.Element) : list (list (option string)) :=
  data ← ET.findall (ET.Descendant "data") root;
  account ← ET.findall (ET.Descendant "account") data;
  location ← ET.findall (ET.Child "location") account;
  [ [ET.get location "id"; ET.get account "id"; first_policy_id data] ].

(** Buildings and occupancies: the direct children of an account first, then
    the children of its locations. *)
Definition placed_keys (child_tag : string) (root : ET.Element)
  : list (list (option string)) :=
  data ← ET.findall (ET.Descendant "data") root;
  account ← ET.findall (ET.Descendant "account") data;
  (child ← ET.findall (ET.Child child_tag) account;
   [ [ET.get child "id"; first_location_id account; first_policy_id data] ])
  ++ (location ← ET.findall (ET.Child "location") account;
      child ← ET.findall (ET.Child child_tag) location;
      [ [ET.get child "id"; ET.get location "id"; first_policy_id data] ]).

Definition address_keys (root : ET.Element) : list (list (option string)) :=
  data ← ET.findall (ET.Descendant "data") root;
  account ← ET.findall (ET.Descendant "account") data;
  (address ← ET.findall (ET.Child "address") account;
   [ [ET.get address "id"; None; ET.get account "id";
      first_policy_id data] ])
  ++ (location ← ET.findall (ET.Child "location") account;
      address ← ET.findall (ET.Child "address") location;
      [ [ET.get address "id"; ET.get location "id"; ET.get account "id";
         first_policy_id data] ]).

(** The line and the policy above each node of a rule with a counter. *)
Definition line_child_parents (child_tag : string) (root : ET.Element)
  : list (list (option string)) :=
  data ← ET.findall (ET.Descendant "data") root;
  policy ← ET.findall (ET.Child "policy") data;
  line ← ET.findall (ET.Child "line") policy;
  node ← ET.findall (ET.Child child_tag) line;
  [ [ET.get line "id"; ET.get policy "id"] ].

Definition referral_parents (root : ET.Element)
  : list (list (option string)) :=
  data ← ET.findall (ET.Descendant "data") root;
  policy ← ET.findall (ET.Child "policy") data;
  referrals ← ET.findall (ET.Descendant "UnderwriterReferrals") policy;
  referral ← ET.findall (ET.Child "UnderwriterReferral") referrals;
  [ [ET.get policy "id"] ].

(** Tax surcharges: those of a policy first, then those of its lines. *)
Definition tax_parents (root : ET.Element) : list (list (option string)) :=
  data ← ET.findall (ET.Descendant "data") root;
  policy ← ET.findall (ET.Child "policy") data;
  (tax ← ET.findall (ET.Child "stateTaxSurcharge") policy;
   [ [ET.get policy "id"; None] ])
  ++ (line ← ET.findall (ET.Child "line") policy;
      tax ← ET.findall (ET.Child "lineStateTaxSurcharge") line;
      [ [ET.get policy "id"; ET.get line "id"] ]).

Section OrderNotions.

Context `{Builtins}.

(** The records hold the identifiers [keys] in the columns [columns],
    record by record: as many records as keys, in the same order. *)
Definition lists_keys (columns : list string) (records : list row)
    (keys : list (list (option string))) : Prop :=
  columns_of columns <$> records = fmap (Some ∘ opt_str) <$> keys.

(** The same for the state of a rule with a counter. *)
Definition state_lists_keys (columns : list string)
    (state : list row * nat) (keys : list (list (option string))) : Prop :=
  lists_keys columns state.1 keys.

End OrderNotions.

(** ** Records of two calls *)

Section ClockNotions.

Context `{Builtins}.

(** Two records that agree on every column but the extraction
    timestamp. *)
Definition same_but_timestamp (r1 r2 : row) : Prop :=
  ∀ c, c ≠ "_extracted_at" → r1 !! c = r2 !! c.

(** Two states of a loop with a counter: equal counters, rows that agree
    on every column but the extraction timestamp. *)
Definition same_but_timestamp_state (s1 s2 : list row * nat) : Prop :=
  s1.2 = s2.2 ∧ Forall2 same_but_timestamp s1.1 s2.1.

End ClockNotions.

(** ** Amounts read from attributes *)

(** The elements the rules of [lines], [coverages] and [tax_surcharges]
    visit, in visiting order. *)
Definition line_elements (root : ET.Element) : list ET.Element :=
  data ← ET.findall (ET.Descendant "data") root;
  policy ← ET.findall (ET.Child "policy") data;
  line ← ET.findall (ET.Child "line") policy;
  [ line ].

Definition coverage_elements (root : ET.Element) : list ET.Element :=
  data ← ET.findall (ET.Descendant "data") root;
  policy ← ET.findall (ET.Child "policy") data;
  line ← ET.findall (ET.Child "line") policy;
  coverage ← ET.findall (ET.Child "coverage") line;
  [ coverage ].

Definition tax_elements (root : ET.Element) : list ET.Element :=
  data ← ET.findall (ET.Descendant "data") root;
  policy ← ET.findall (ET.Child "policy") data;
  (tax ← ET.findall (ET.Child "stateTaxSurcharge") policy; [ tax ])
  ++ (line ← ET.findall (ET.Child "line") policy;
      tax ← ET.findall (ET.Child "lineStateTaxSurcharge") line;
      [ tax ]).

Section AmountNotions.

Context `{Builtins}.

(** The number that the text of the element itself parses to: the text is
    not empty, nor is it once stripped, and [float] accepts it. *)
Definition own_number (node : ET.Element) : option pyfloat :=
  match ET.text node with
  | Some t =>
      if nonempty t && nonempty (str_strip t)
      then float_of_str (str_strip t) else None
  | None => None
  end.

(** The column of the record holds the number the text of the element
    itself parses to and, when there is no such number, the attribute of
    the element named like the column, as it is written in the document
    (null when the element has no such attribute). *)
Definition holds_amount (column : string) (node : ET.Element) (r : row)
  : Prop :=
  r !! column
  = Some (match own_number node with
          | Some x => VFloat x
          | None => opt_str (ET.get node column)
          end).

(** The records hold, record by record, the amounts of the elements in
    the columns. *)
Definition hold_amounts (columns : list string) (records : list row)
    (nodes : list ET.Element) : Prop :=
  Forall2 (λ r node, Forall (λ c, holds_amount c node r) columns)
    records nodes.

Definition state_hold_amounts (columns : list string)
    (state : list row * nat) (nodes : list ET.Element) : Prop :=
  hold_amounts columns state.1 nodes.

End AmountNotions.

(** * Properties *)

(** ** Loops *)

Section for_each_lemmas.

Context {A S : Type}.
Implicit Types (xs : list A) (body : A → S → S) (s : S).

Lemma for_each_nil body s : for_each [] body s = s.
Proof. reflexivity. Qed.

Lemma for_each_cons x xs body s :
  for_each (x :: xs) body s = for_each xs body (body x s).
Proof. reflexivity. Qed.

Lemma for_each_app xs ys body s :
  for_each (xs ++ ys) body s = for_each ys body (for_each xs body s).
Proof. unfold for_each. apply foldl_app. Qed.

Lemma for_each_ext xs body1 body2 s :
  (∀ x s, x ∈ xs → body1 x s = body2 x s) →
  for_each xs body1 s = for_each xs body2 s.
Proof.
  revert s. induction xs as [|x xs IH]; intros s Hext; [done|].
  rewrite !for_each_cons, Hext by left. apply IH.
  intros y t Hy. apply Hext. by right.
Qed.

Lemma for_each_invariant (P : S → Prop) xs body s :
  (∀ x s, x ∈ xs → P s → P (body x s)) → P s → P (for_each xs body s).
Proof.
  revert s. induction xs as [|x xs IH]; intros s Hstep Hs; [done|].
  rewrite for_each_cons. apply IH.
  - intros y t Hy. apply Hstep. by right.
  - apply Hstep; [by left|done].
Qed.

Lemma for_each_rel {S'} (R : S → S' → Prop) xs body
    (body' : A → S' → S') s (t : S') :
  (∀ x s (t : S'), x ∈ xs → R s t → R (body x s) (body' x t)) →
  R s t → R (for_each xs body s) (for_each xs body' t).
Proof.
  revert s t. induction xs as [|x xs IH]; intros s t Hstep Hs; [done|].
  rewrite !for_each_cons. apply IH.
  - intros y u u' Hy. apply Hstep. by right.
  - apply Hstep; [by left|done].
Qed.

End for_each_lemmas.

(** A loop over a flattened list is the nest of loops. *)
Lemma for_each_bind {A B S} (f : A → list B) (xs : list A)
    (body : B → S → S) (s : S) :
  for_each (xs ≫= f) body s = for_each xs (λ x, for_each (f x) body) s.
Proof.
  revert s. induction xs as [|x xs IH]; intros s; [done|].
  rewrite bind_cons, for_each_app, for_each_cons. apply IH.
Qed.

(** A loop that only appends rows computed from the loop variable. *)
Lemma for_each_append {A B} (g : A → list B) (xs : list A)
    (body : A → list B → list B) (s : list B) :
  (∀ x s, x ∈ xs → body x s = s ++ g x) →
  for_each xs body s = s ++ (xs ≫= g).
Proof.
  revert s. induction xs as [|x xs IH]; intros s Hbody.
  - by rewrite for_each_nil, app_nil_r.
  - rewrite for_each_cons, Hbody by left.
    rewrite IH, bind_cons, (assoc_L (++)); [done|].
    intros y t Hy. apply Hbody. by right.
Qed.

(** A loop over an exception-carrying state whose body always appends. *)
Lemma for_each_result_append {A B} (g : A → list B) (xs : list A)
    (body : A → result (list B) → result (list B)) (l : list B) :
  (∀ x l, body x (Ok l) = Ok (l ++ g x)) →
  for_each xs body (Ok l) = Ok (l ++ (xs ≫= g)).
Proof.
  intros Hbody. revert l. induction xs as [|x xs IH]; intros l.
  - by rewrite for_each_nil, app_nil_r.
  - by rewrite for_each_cons, Hbody, IH, bind_cons, (assoc_L (++)).
Qed.

(** A loop that appends [g x] to the first component of its state exactly
    for the [x] satisfying [P]. *)
Lemma for_each_fst_filter {A B T} (P : A → Prop) `{!∀ x, Decision (P x)}
    (g : A → B) (xs : list A) (body : A → list B * T → list B * T)
    (acc : list B) (t : T) :
  (∀ x acc t, P x → (body x (acc, t)).1 = acc ++ [g x]) →
  (∀ x acc t, ¬ P x → (body x (acc, t)).1 = acc) →
  (for_each xs body (acc, t)).1 = acc ++ (g <$> filter P xs).
Proof.
  intros Hyes Hno. revert acc t. induction xs as [|x xs IH]; intros acc t.
  - by rewrite for_each_nil, app_nil_r.
  - rewrite for_each_cons.
    destruct (body x (acc, t)) as [acc' t'] eqn:Hx. rewrite IH.
    destruct (decide (P x)) as [HP|HP].
    + rewrite filter_cons_True, fmap_cons by done.
      specialize (Hyes x acc t HP). rewrite Hx in Hyes. simpl in Hyes.
      by rewrite Hyes, <-(assoc_L (++)).
    + rewrite filter_cons_False by done.
      specialize (Hno x acc t HP). rewrite Hx in Hno. simpl in Hno.
      by rewrite Hno.
Qed.

Lemma filter_all {A} (P : A → Prop) `{!∀ x, Decision (P x)} (l : list A) :
  (∀ x, P x) → filter P l = l.
Proof.
  intros HP. induction l as [|x l IH]; [done|].
  by rewrite filter_cons_True, IH.
Qed.

Lemma fmap_pair_fst {A B} (f : A → B) (l : list A) :
  ((λ x, (x, f x)) <$> l).*1 = l.
Proof. induction l as [|x l IH]; [done|]. by rewrite !fmap_cons, IH. Qed.

(** ** The order of [str] *)

Lemma string_compare_refl s : String.compare s s = Eq.
Proof.
  induction s as [|a s IH]; simpl; [done|].
  unfold Ascii.compare. by rewrite N.compare_refl.
Qed.

Lemma ltb_strictly_newer a b : String.ltb a b = true ↔ strictly_newer a b.
Proof.
  unfold strictly_newer, String.le, String.ltb, String.leb.
  destruct (String.compare a b) eqn:Hc; simpl.
  - apply String.compare_eq_iff in Hc as ->. split; [done|]. by intros [_ ?].
  - split; [intros _|done]. split; [done|]. intros ->.
    by rewrite string_compare_refl in Hc.
  - split; [done|]. by intros [[] _].
Qed.

Lemma ltb_false_le a b : String.ltb a b = false ↔ (b ≤ a)%string.
Proof.
  unfold String.le, String.ltb, String.leb.
  rewrite (String.compare_antisym a b).
  destruct (String.compare b a); simpl; split; done.
Qed.

Lemma empty_le s : ("" ≤ s)%string.
Proof. by destruct s. Qed.

Lemma nonempty_false s : nonempty s = false ↔ s = "".
Proof. by destruct s. Qed.

(** ** File selection, parse failures and the watermark *)

Section ReadTable.

Context `{Builtins}.

Implicit Types (w : World) (self : LakeflowConnect).

(** [_extract_table_records] concatenates, in order, the rows of the files
    that parse, unless parsing one of the files raises an exception other
    than [ET.ParseError], which then leaves the call. *)
Lemma extract_table_records_eq w table_name files :
  _extract_table_records w table_name files
  = outcome (first_failure w files) (files ≫= rows_of_file w table_name).
Proof.
  unfold _extract_table_records.
  set (body := λ '(file_path, file_mtime) state, _).
  assert (∀ files e, for_each files body (Raise e) = Raise e) as Hraise.
  { intros fs e. induction fs as [|[p m] fs IH]; [done|].
    by rewrite for_each_cons. }
  change (files ≫= rows_of_file w table_name)
    with ([] ++ (files ≫= rows_of_file w table_name)).
  generalize (@nil row) as records.
  induction files as [|[p m] files IH]; intros records.
  - by rewrite for_each_nil, app_nil_r.
  - rewrite for_each_cons, bind_cons. cbn [first_failure fst].
    unfold rows_of_file at 1, xml_root. cbn [fst snd].
    unfold body at 2, extract_file.
    destruct (ET_parse w p) as [root|e] eqn:Hp.
    + by rewrite IH, (assoc_L (++)).
    + destruct e; [by rewrite Hraise|by rewrite IH|by rewrite Hraise..].
Qed.

Lemma select_files_eq w xml_files last_modified_time :
  (select_files w xml_files last_modified_time).1
  = (λ p, (p, getmtime_iso w p)) <$>
      filter (λ p, last_modified_time = ""
                   ∨ strictly_newer last_modified_time (getmtime_iso w p))
        xml_files.
Proof.
  unfold select_files.
  rewrite (for_each_fst_filter
    (λ p, last_modified_time = ""
          ∨ strictly_newer last_modified_time (getmtime_iso w p))
    (λ p, (p, getmtime_iso w p))); [done|..].
  - intros p acc mx Hp. unfold _get_file_modified_time. cbv zeta.
    destruct (negb (nonempty last_modified_time)
              || String.ltb last_modified_time (getmtime_iso w p)) eqn:Hc;
      [done|].
    apply orb_false_iff in Hc as [Hc1 Hc2]. destruct Hp as [->|Hp]; [done|].
    apply ltb_strictly_newer in Hp. congruence.
  - intros p acc mx Hp. unfold _get_file_modified_time. cbv zeta.
    destruct (negb (nonempty last_modified_time)
              || String.ltb last_modified_time (getmtime_iso w p)) eqn:Hc;
      [|done].
    destruct Hp. apply orb_true_iff in Hc as [Hc|Hc].
    + left. by apply nonempty_false, negb_true_iff.
    + right. by apply ltb_strictly_newer.
Qed.

(** What a read call returns, in terms of the selection loop. *)
Lemma read_table_eq self w table_name start_offset table_options :
  let last_modified_time :=
    default "" (start_offset !! "last_modified_time") in
  let sel := select_files w (_get_xml_files self w) last_modified_time in
  read_table self w table_name start_offset table_options
  = outcome (first_failure w sel.1)
      (sel.1 ≫= rows_of_file w table_name,
       {[ "last_modified_time" := sel.2 ]}).
Proof.
  intros lmt sel. unfold read_table. fold lmt. subst sel.
  destruct (_get_xml_files self w) as [|p ps]; [done|].
  destruct (select_files w (p :: ps) lmt) as [files mx].
  rewrite extract_table_records_eq. simpl.
  by destruct (first_failure w files).
Qed.

Lemma select_files_inv w xml_files last_modified_time :
  selection_inv last_modified_time
    (select_files w xml_files last_modified_time).
Proof.
  unfold select_files. apply for_each_invariant; last first.
  { split; [done|]. split; [done|]. split; [done|].
    intros m Hm. by apply elem_of_nil in Hm. }
  intros p [acc mx] _ (Hle & Hnil & Hin & Hmax).
  unfold _get_file_modified_time. cbv zeta.
  set (m := getmtime_iso w p).
  destruct (negb (nonempty last_modified_time)
            || String.ltb last_modified_time m) eqn:Hc; [|done].
  destruct (String.ltb mx m) eqn:Hmx.
  - apply ltb_strictly_newer in Hmx as [Hmx _]. repeat split.
    + by etrans.
    + by intros [_ [=]]%app_eq_nil.
    + intros _. rewrite fmap_app, elem_of_app. right. by left.
    + intros m'. rewrite fmap_app, elem_of_app. simpl.
      rewrite list_elem_of_singleton.
      intros [?| ->]; [trans mx; [by apply Hmax|done]|done].
  - apply ltb_false_le in Hmx. repeat split.
    + done.
    + by intros [_ [=]]%app_eq_nil.
    + intros _. rewrite fmap_app, elem_of_app.
      destruct acc as [|a acc]; [right|left; by apply Hin].
      rewrite Hnil in * by done. simpl. apply list_elem_of_singleton.
      apply (anti_symm String.le); [|done].
      apply orb_true_iff in Hc as [Hc|Hc].
      * apply negb_true_iff, nonempty_false in Hc as ->. apply empty_le.
      * by apply ltb_strictly_newer in Hc as [? _].
    + intros m'. rewrite fmap_app, elem_of_app. simpl.
      rewrite list_elem_of_singleton.
      intros [?| ->]; [by apply Hmax|done].
Qed.

(** C7. File selection of a read call returns exactly the matching files
    whose modification time is strictly greater than the incoming
    watermark, each paired with its modification time, and the call returns
    the rows of exactly these files (or raises the exception, other than
    [ET.ParseError], that parsing one of them raises); a file whose
    modification time equals the watermark is excluded; an empty watermark
    selects all matching files. *)
Theorem read_table_selects_strictly_newer
    self w table_name start_offset table_options :
  let last_modified_time :=
    default "" (start_offset !! "last_modified_time") in
  let xml_files := _get_xml_files self w in
  let selected :=
    (λ p, (p, getmtime_iso w p)) <$>
      filter (λ p, last_modified_time = ""
                   ∨ strictly_newer last_modified_time (getmtime_iso w p))
        xml_files in
  (select_files w xml_files last_modified_time).1 = selected
  ∧ (∃ new_offset,
       read_table self w table_name start_offset table_options
       = outcome (first_failure w selected)
           (selected ≫= rows_of_file w table_name, new_offset))
  ∧ (last_modified_time = "" →
     selected = (λ p, (p, getmtime_iso w p)) <$> xml_files)
  ∧ (∀ p, last_modified_time ≠ "" →
          getmtime_iso w p = last_modified_time → p ∉ selected.*1).
Proof.
  intros lmt xml_files selected.
  assert ((select_files w xml_files lmt).1 = selected) as Hsel
    by apply select_files_eq.
  split; [done|]. split; [|split].
  - eexists. pose proof (read_table_eq self w table_name start_offset
      table_options) as Hread. cbv zeta in Hread. fold lmt xml_files in Hread.
    by rewrite Hsel in Hread.
  - intros Hempty. subst selected. f_equal.
    apply filter_all. intros p. by left.
  - intros p Hne Hp. subst selected.
    rewrite fmap_pair_fst, list_elem_of_filter.
    intros [[?|[_ Hs]] _]; [done|]. by rewrite Hp in Hs.
Qed.

(** A read call returns the rows of the selected files and the running
    maximum of the selection loop, which obeys the loop's invariant. *)
Lemma read_table_watermark self w table_name start_offset table_options :
  let last_modified_time :=
    default "" (start_offset !! "last_modified_time") in
  let sel := select_files w (_get_xml_files self w) last_modified_time in
  read_table self w table_name start_offset table_options
  = outcome (first_failure w sel.1)
      (sel.1 ≫= rows_of_file w table_name,
       {[ "last_modified_time" := sel.2 ]})
  ∧ selection_inv last_modified_time (sel.1, sel.2).
Proof.
  intros lmt sel. split; [apply read_table_eq|].
  pose proof (select_files_inv w (_get_xml_files self w) lmt) as Hinv.
  fold sel in Hinv. by destruct sel.
Qed.

(** C6. The outgoing watermark of a read call is greater than or equal to
    the incoming one; it is the maximum modification time among the files
    selected in the call, and the incoming watermark unchanged when no file
    was selected.  The call returns it unless parsing a selected file
    raises an exception other than [ET.ParseError]. *)
Theorem watermark_never_moves_backward
    self w table_name start_offset table_options :
  let last_modified_time :=
    default "" (start_offset !! "last_modified_time") in
  let selected :=
    (select_files w (_get_xml_files self w) last_modified_time).1 in
  ∃ records outgoing,
    read_table self w table_name start_offset table_options
    = outcome (first_failure w selected)
        (records, {[ "last_modified_time" := outgoing ]})
    ∧ (last_modified_time ≤ outgoing)%string
    ∧ (selected = [] → outgoing = last_modified_time)
    ∧ (selected ≠ [] →
       outgoing ∈ selected.*2
       ∧ ∀ m, m ∈ selected.*2 → (m ≤ outgoing)%string).
Proof.
  intros lmt selected.
  destruct (read_table_watermark self w table_name start_offset
    table_options) as [Hread (Hle & Hnil & Hin & Hmax)].
  fold lmt in Hread, Hle, Hnil, Hin, Hmax. simpl in Hnil, Hin, Hmax.
  eexists _, _. split; [exact Hread|]. split; [done|]. split; [done|].
  intros Hne. split; [by apply Hin|done].
Qed.





(** No rule runs for a table name outside the catalog. *)
Lemma extract_rule_unknown table_name root source_file file_mtime extracted_at :
  table_name ∉ list_tables →
  extract_rule table_name root source_file file_mtime extracted_at = [].
Proof.
  intros Hunknown. unfold extract_rule.
  repeat (rewrite bool_decide_eq_false_2;
          [|intros ->; apply Hunknown; unfold list_tables; set_solver]).
  done.
Qed.

Lemma schemas_unknown table_name :
  table_name ∉ list_tables → schemas !! table_name = None.
Proof. intros Hunknown. by apply not_elem_of_list_to_map_1. Qed.

Lemma metadata_unknown table_name :
  table_name ∉ list_tables → metadata !! table_name = None.
Proof. intros Hunknown. by apply not_elem_of_list_to_map_1. Qed.

(** The schema and metadata interfaces fail for every name outside the
    catalog, and answer for every name of the catalog. *)
Lemma get_table_schema_unknown table_name table_options :
  table_name ∉ list_tables →
  get_table_schema table_name table_options
  = Raise (ValueError ("Unknown table: " +:+ table_name)).
Proof.
  intros Hunknown. unfold get_table_schema.
  by rewrite schemas_unknown.
Qed.

Lemma read_table_metadata_unknown table_name table_options :
  table_name ∉ list_tables →
  read_table_metadata table_name table_options
  = Raise (ValueError ("Unknown table: " +:+ table_name)).
Proof.
  intros Hunknown. unfold read_table_metadata.
  by rewrite metadata_unknown.
Qed.

Lemma catalog_known table_name table_options :
  table_name ∈ list_tables →
  (∃ schema, get_table_schema table_name table_options = Ok schema)
  ∧ (∃ m, read_table_metadata table_name table_options = Ok m).
Proof.
  unfold list_tables. rewrite !elem_of_cons, elem_of_nil.
  intros Hknown. repeat destruct Hknown as [->|Hknown];
    [split; eexists; reflexivity..|done].
Qed.

(** The read interface does not check the table name: for a name outside
    the catalog it parses the selected files all the same, and returns no
    rows and a watermark. *)
Lemma read_table_unknown self w table_name start_offset table_options :
  table_name ∉ list_tables →
  let selected :=
    (select_files w (_get_xml_files self w)
       (default "" (start_offset !! "last_modified_time"))).1 in
  ∃ new_offset,
    read_table self w table_name start_offset table_options
    = outcome (first_failure w selected) ([], new_offset).
Proof.
  intros Hunknown selected.
  pose proof (read_table_eq self w table_name start_offset table_options)
    as Hread. cbv zeta in Hread. fold selected in Hread. rewrite Hread.
  assert (∀ files : list (string * string),
            files ≫= rows_of_file w table_name = []) as Hnone.
  { induction files as [|[p m] files IH]; [done|].
    rewrite bind_cons, IH, app_nil_r. unfold rows_of_file. simpl.
    destruct (xml_root w p); [|done]. by apply extract_rule_unknown. }
  rewrite Hnone. by eexists.
Qed.

(** C9. For the table name ["claims"], which is outside the catalog, the
    schema and metadata interfaces raise the unknown-table error, while the
    read interface returns an empty record sequence and an advanced
    watermark instead of an error. *)
Theorem read_table_unknown_table_returns_empty :
  ("claims" ∉ list_tables)
  ∧ get_table_schema "claims" ∅ = Raise (ValueError "Unknown table: claims")
  ∧ read_table_metadata "claims" ∅
    = Raise (ValueError "Unknown table: claims")
  ∧ read_table Examples.connector Examples.broken_file_world "claims" ∅ ∅
    = Ok ([], {[ "last_modified_time" := "2024-03-02T10:00:00" ]}).
Proof.
  assert ("claims" ∉ list_tables) as Hunknown.
  { unfold list_tables. rewrite !not_elem_of_cons.
    repeat split; (done || apply not_elem_of_nil). }
  split; [done|]. split; [by apply get_table_schema_unknown|].
  split; [by apply read_table_metadata_unknown|].
  destruct (read_table_unknown Examples.connector Examples.broken_file_world
    "claims" ∅ ∅ Hunknown) as [new_offset Hread].
  cbv zeta in Hread. rewrite Hread.
  pose proof (read_table_eq Examples.connector Examples.broken_file_world
    "claims" ∅ ∅) as Heq. cbv zeta in Heq. rewrite Heq in Hread.
  set (failure := first_failure _ _) in *.
  assert (failure = None) as -> by reflexivity. simpl in *.
  f_equal. f_equal. by injection Hread as <-.
Qed.

(** C10. A selected file that is not well-formed, and is skipped,
    contributes no rows but its modification time (a non-empty string, as
    every ISO timestamp is) still bounds from below the watermark the call
    returns, so that no later call started from that watermark, or from a
    greater one, selects the file again while its modification time is
    unchanged.  The call returns unless parsing another selected file
    raises an exception other than [ET.ParseError]. *)
Theorem skipped_file_is_not_retried
    self w table_name start_offset table_options p :
  let last_modified_time :=
    default "" (start_offset !! "last_modified_time") in
  p ∈ _get_xml_files self w →
  ET_parse w p = Raise ParseError →
  last_modified_time = ""
  ∨ strictly_newer last_modified_time (getmtime_iso w p) →
  getmtime_iso w p ≠ "" →
  ∃ records outgoing,
    read_table self w table_name start_offset table_options
    = outcome
        (first_failure w
           (select_files w (_get_xml_files self w) last_modified_time).1)
        (records, {[ "last_modified_time" := outgoing ]})
    ∧ (p, getmtime_iso w p)
      ∈ (select_files w (_get_xml_files self w) last_modified_time).1
    ∧ rows_of_file w table_name (p, getmtime_iso w p) = []
    ∧ (getmtime_iso w p ≤ outgoing)%string
    ∧ ∀ w' xml_files' watermark,
        (outgoing ≤ watermark)%string →
        getmtime_iso w' p = getmtime_iso w p →
        p ∉ (select_files w' xml_files' watermark).1.*1.
Proof.
  intros lmt Hp Hbroken Hnewer Hmtime.
  destruct (read_table_watermark self w table_name start_offset
    table_options) as [Hread (_ & _ & Hin & Hmax)].
  fold lmt in Hread, Hin, Hmax. simpl in Hin, Hmax.
  set (outgoing := (select_files w (_get_xml_files self w) lmt).2) in *.
  assert ((p, getmtime_iso w p)
          ∈ (select_files w (_get_xml_files self w) lmt).1) as Hsel.
  { rewrite select_files_eq. apply list_elem_of_fmap. exists p.
    split; [done|]. by apply list_elem_of_filter. }
  assert (getmtime_iso w p ≤ outgoing)%string as Hle.
  { apply Hmax. apply list_elem_of_fmap. by exists (p, getmtime_iso w p). }
  eexists _, outgoing. split; [exact Hread|]. split; [done|].
  split; [unfold rows_of_file, xml_root; simpl; by rewrite Hbroken|].
  split; [done|]. intros w' xml_files' watermark Hlater Hsame.
  assert (getmtime_iso w p ≤ watermark)%string as Hle' by (by etrans).
  rewrite select_files_eq, fmap_pair_fst.
  rewrite list_elem_of_filter, Hsame. intros [[->|[Hge Hne]] _].
  - apply Hmtime. apply (anti_symm String.le); [done|apply empty_le].
  - apply Hne. by apply (anti_symm String.le).
Qed.

End ReadTable.

(** The skipped file of [Examples.broken_file_world]. *)
Lemma skipped_file_is_not_retried_witness :
  ∃ records outgoing,
    read_table (H := Examples.decimal_builtins) Examples.connector
      Examples.broken_file_world "coverages" ∅ ∅
    = Ok (records, {[ "last_modified_time" := outgoing ]})
    ∧ ("/Volumes/main/duck_creek/in/a.xml", "2024-03-01T10:00:00")
      ∈ (select_files Examples.broken_file_world
           (_get_xml_files Examples.connector Examples.broken_file_world)
           "").1
    ∧ rows_of_file (H := Examples.decimal_builtins)
        Examples.broken_file_world "coverages"
        ("/Volumes/main/duck_creek/in/a.xml", "2024-03-01T10:00:00") = []
    ∧ ("2024-03-01T10:00:00" ≤ outgoing)%string
    ∧ ∀ w' xml_files' watermark,
        (outgoing ≤ watermark)%string →
        getmtime_iso w' "/Volumes/main/duck_creek/in/a.xml"
        = "2024-03-01T10:00:00" →
        "/Volumes/main/duck_creek/in/a.xml"
        ∉ (select_files w' xml_files' watermark).1.*1.
Proof.
  refine (skipped_file_is_not_retried (H := Examples.decimal_builtins)
    Examples.connector Examples.broken_file_world "coverages" ∅ ∅
    "/Volumes/main/duck_creek/in/a.xml" _ _ _ _).
  - vm_compute. left.
  - reflexivity.
  - left. reflexivity.
  - vm_compute. discriminate.
Defined.

(** ** Rows produced by nested loops *)

Lemma for_each_keeps {A B} (xs : list A) (body : A → list B → list B) s r :
  keeps body → r ∈ s → r ∈ for_each xs body s.
Proof.
  intros Hkeeps. apply (for_each_invariant (λ s, r ∈ s)).
  intros x t _. apply Hkeeps.
Qed.

(** A row the body adds for one element of the list is in the result. *)
Lemma for_each_elem_of {A B} (xs : list A) (body : A → list B → list B)
    x s r :
  keeps body → x ∈ xs → (∀ s, r ∈ body x s) → r ∈ for_each xs body s.
Proof.
  intros Hkeeps Hx Hr. revert s.
  induction xs as [|y ys IH]; intros s; [by apply elem_of_nil in Hx|].
  rewrite for_each_cons. apply elem_of_cons in Hx as [<-|Hx].
  - by apply for_each_keeps.
  - by apply IH.
Qed.

Ltac solve_keeps :=
  repeat first
    [ progress intros
    | apply for_each_keeps; [|assumption]
    | apply for_each_keeps
    | match goal with
      | |- keeps _ => let x := fresh "x" in let s := fresh "s" in
                      let r := fresh "r" in intros x s r ?; cbv zeta
      | |- _ ∈ _ ++ [_] => apply elem_of_app; left; assumption
      end ].

Section Placement.

Context `{Builtins}.

(** C4. For a line whose [written] attribute is ["100.50"] and whose
    [change] attribute is ["abc"], the fields [written] and [change] of the
    row are these raw strings: the attribute is passed to [_get_float] as
    the default and is never coerced, and the unparsable text is not
    replaced by null. *)
Theorem line_written_is_raw_attribute source_file extracted_at :
  columns_of ["line_id"; "written"; "change"]
    <$> _extract_lines Examples.line_doc source_file extracted_at
  = [ [Some (VStr "L1"); Some (VStr "100.50"); Some (VStr "abc")] ].
Proof. reflexivity. Qed.

(** [_get_float] returns its default unless the text of the element itself
    parses as a float. *)
Lemma get_float_default_or_text elem default :
  _get_float elem default = default
  ∨ ∃ e t x, elem = Some e ∧ ET.text e = Some t
             ∧ float_of_str (str_strip t) = Some x
             ∧ _get_float elem default = VFloat x.
Proof.
  unfold _get_float, _get_text.
  destruct elem as [e|]; [|by left]. destruct (ET.text e) as [t|] eqn:Ht;
    simpl; [|by left].
  destruct (nonempty t); simpl; [|by left].
  destruct (nonempty (str_strip t)); [|by left].
  destruct (float_of_str (str_strip t)) as [x|] eqn:Hx; [|by left].
  right. by exists e, t, x.
Qed.

(** X3. A numeric field read from a named child element, with null as
    default: a missing child, a missing or empty text, a text that is
    blank once stripped and a text that does not parse as a number all
    give null; a text that parses gives the number of the stripped text;
    the field never holds the raw text. *)
Theorem get_float_child_null_or_float :
  _get_float None VNone = VNone
  ∧ (∀ e, ET.text e = None ∨ ET.text e = Some "" →
          _get_float (Some e) VNone = VNone)
  ∧ (∀ e t, ET.text e = Some t → str_strip t = "" →
            _get_float (Some e) VNone = VNone)
  ∧ (∀ e t, ET.text e = Some t → float_of_str (str_strip t) = None →
            _get_float (Some e) VNone = VNone)
  ∧ (∀ e t x, ET.text e = Some t → t ≠ "" → str_strip t ≠ "" →
              float_of_str (str_strip t) = Some x →
              _get_float (Some e) VNone = VFloat x)
  ∧ (∀ elem s, _get_float elem VNone ≠ VStr s).
Proof.
  split; [done|]. split; [|split; [|split; [|split]]].
  - intros e [Ht|Ht]; unfold _get_float, _get_text; by rewrite Ht.
  - intros e t Ht Hstrip. unfold _get_float, _get_text. rewrite Ht. simpl.
    destruct (nonempty t); simpl; [|done]. by rewrite Hstrip.
  - intros e t Ht Hfloat. unfold _get_float, _get_text. rewrite Ht. simpl.
    destruct (nonempty t); simpl; [|done]. rewrite Hfloat.
    by destruct (nonempty (str_strip t)).
  - intros e t x Ht Hne Hstrip Hfloat. unfold _get_float, _get_text.
    rewrite Ht. simpl.
    assert (∀ u, u ≠ "" → nonempty u = true) as Hnonempty
      by (by intros [|??]).
    rewrite (Hnonempty t) by done. simpl.
    rewrite (Hnonempty (str_strip t)) by done. simpl. by rewrite Hfloat.
  - intros elem s.
    destruct (get_float_default_or_text elem VNone)
      as [->|(e & t & x & _ & _ & _ & ->)]; done.
Qed.

(** C5. In a batch file with two policies [P1] and [P2], each holding one
    account, the account under [P2] is given the identifier of the first
    policy, [P1]. *)
Theorem account_of_second_policy_gets_first_policy_id
    source_file extracted_at :
  columns_of ["account_id"; "policy_id"]
    <$> _extract_accounts Examples.batch_doc source_file extracted_at
  = [ [Some (VStr "A1"); Some (VStr "P1")];
      [Some (VStr "A2"); Some (VStr "P1")] ].
Proof. reflexivity. Qed.

(** C3. Within an account found under a [data] node, a
    building (occupancy) that is a direct child of the account yields a row
    whose [location_id] is the identifier of the account's first location
    child, and null when the account has no location child; a building
    (occupancy) nested under a location of the account yields a row whose
    [location_id] is that location's identifier.  The rows of the two
    placements have the same shape and differ only in [location_id]. *)
Theorem rows_by_placement root source_file extracted_at data account :
  data ∈ ET.findall (ET.Descendant "data") root →
  account ∈ ET.findall (ET.Descendant "account") data →
  (∀ building,
     building ∈ ET.findall (ET.Child "building") account →
     building_row (ET.get building "id") (first_location_id account)
       (first_policy_id data) source_file extracted_at
     ∈ _extract_buildings root source_file extracted_at)
  ∧ (∀ location building,
       location ∈ ET.findall (ET.Child "location") account →
       building ∈ ET.findall (ET.Child "building") location →
       building_row (ET.get building "id") (ET.get location "id")
         (first_policy_id data) source_file extracted_at
       ∈ _extract_buildings root source_file extracted_at)
  ∧ (∀ occupancy,
       occupancy ∈ ET.findall (ET.Child "occupancy") account →
       occupancy_row (ET.get occupancy "id") (first_location_id account)
         (first_policy_id data) source_file extracted_at
       ∈ _extract_occupancies root source_file extracted_at)
  ∧ (∀ location occupancy,
       location ∈ ET.findall (ET.Child "location") account →
       occupancy ∈ ET.findall (ET.Child "occupancy") location →
       occupancy_row (ET.get occupancy "id") (ET.get location "id")
         (first_policy_id data) source_file extracted_at
       ∈ _extract_occupancies root source_file extracted_at)
  ∧ (ET.findall (ET.Child "location") account = [] →
     first_location_id account = None).
Proof.
  intros Hdata Haccount. repeat split.
  - intros building Hbuilding. unfold _extract_buildings.
    apply (for_each_elem_of _ _ data); [solve_keeps|done|]. intros s.
    apply (for_each_elem_of _ _ account); [solve_keeps|done|]. intros s'.
    cbv zeta. apply for_each_keeps; [solve_keeps|].
    apply (for_each_elem_of _ _ building); [solve_keeps|done|]. intros s''.
    apply elem_of_app. right. by apply list_elem_of_singleton.
  - intros location building Hlocation Hbuilding. unfold _extract_buildings.
    apply (for_each_elem_of _ _ data); [solve_keeps|done|]. intros s.
    apply (for_each_elem_of _ _ account); [solve_keeps|done|]. intros s'.
    cbv zeta.
    apply (for_each_elem_of _ _ location); [solve_keeps|done|]. intros s''.
    apply (for_each_elem_of _ _ building); [solve_keeps|done|]. intros s3.
    apply elem_of_app. right. by apply list_elem_of_singleton.
  - intros occupancy Hoccupancy. unfold _extract_occupancies.
    apply (for_each_elem_of _ _ data); [solve_keeps|done|]. intros s.
    apply (for_each_elem_of _ _ account); [solve_keeps|done|]. intros s'.
    cbv zeta. apply for_each_keeps; [solve_keeps|].
    apply (for_each_elem_of _ _ occupancy); [solve_keeps|done|]. intros s''.
    apply elem_of_app. right. by apply list_elem_of_singleton.
  - intros location occupancy Hlocation Hoccupancy.
    unfold _extract_occupancies.
    apply (for_each_elem_of _ _ data); [solve_keeps|done|]. intros s.
    apply (for_each_elem_of _ _ account); [solve_keeps|done|]. intros s'.
    cbv zeta.
    apply (for_each_elem_of _ _ location); [solve_keeps|done|]. intros s''.
    apply (for_each_elem_of _ _ occupancy); [solve_keeps|done|]. intros s3.
    apply elem_of_app. right. by apply list_elem_of_singleton.
  - intros Hnone. unfold first_location_id, ET.find. by rewrite Hnone.
Qed.

End Placement.

(** ** Determinism of the keys *)

Section Determinism.

Context `{Builtins}.

(** Two dictionary displays with the same keys, whose values agree outside
    the provenance columns. *)
Lemma dict_agree (items1 items2 : list (string * value)) :
  Forall2 (λ kv1 kv2, kv1.1 = kv2.1
                      ∧ (kv1.1 ∉ provenance_columns → kv1.2 = kv2.2))
    items1 items2 →
  same_business_columns (dict items1) (dict items2).
Proof.
  intros Hitems c Hc. unfold dict.
  induction Hitems as [|[k1 v1] [k2 v2] l1 l2 [Hk Hv] _ IH]; [done|].
  simpl in Hk, Hv. subst k2. rewrite !list_to_map_cons, !lookup_insert.
  destruct (decide (k1 = c)) as [->|]; [|done]. f_equal. by apply Hv.
Qed.

Lemma same_business_snoc records1 records2 r1 r2 :
  Forall2 same_business_columns records1 records2 →
  same_business_columns r1 r2 →
  Forall2 same_business_columns (records1 ++ [r1]) (records2 ++ [r2]).
Proof. intros ??. apply Forall2_app; [done|]. by constructor. Qed.

Lemma key_columns_business table_name :
  Forall (λ c, c ∉ provenance_columns) (key_columns table_name).
Proof.
  destruct (decide (table_name ∈ list_tables)) as [Hin|Hout].
  - unfold list_tables in Hin. rewrite !elem_of_cons, elem_of_nil in Hin.
    repeat destruct Hin as [->|Hin]; [..|done];
      apply (bool_decide_unpack _); by vm_compute.
  - unfold key_columns. by rewrite metadata_unknown.
Qed.

Lemma key_tuple_agree table_name records1 records2 :
  Forall2 same_business_columns records1 records2 →
  key_tuple table_name <$> records1 = key_tuple table_name <$> records2.
Proof.
  induction 1 as [|r1 r2 l1 l2 Hr _ IH]; [done|].
  rewrite !fmap_cons, IH. f_equal. unfold key_tuple, columns_of.
  apply list_fmap_ext. intros _ c Hc%list_elem_of_lookup_2. apply Hr.
  pose proof (key_columns_business table_name) as Hcols.
  rewrite Forall_forall in Hcols. by apply Hcols.
Qed.

End Determinism.

(** The items of two dictionary displays agree outside the provenance
    columns. *)
Ltac solve_items :=
  repeat (constructor;
    [split;
      [reflexivity
      |simpl; first
        [ intros _; reflexivity
        | let Hc := fresh in
          intros Hc; exfalso; apply Hc; unfold provenance_columns;
          rewrite !elem_of_cons; tauto ]]
    |]);
  constructor.

(** Two runs of a rule, loop by loop. *)
Ltac solve_rows :=
  repeat first
    [ assumption
    | match goal with |- Forall2 _ [] [] => constructor end
    | apply same_business_snoc; [|apply dict_agree; solve_items]
    | apply (for_each_rel (Forall2 same_business_columns));
        [intros ? ? ? _ ?; cbv beta zeta|] ].

Ltac solve_states :=
  repeat first
    [ assumption
    | match goal with
      | |- same_business_state ([], 0) ([], 0) => split; [done|constructor]
      | |- same_business_state (match ?s with (_, _) => _ end) _ =>
          is_var s; destruct s
      | |- same_business_state _ (match ?s with (_, _) => _ end) =>
          is_var s; destruct s
      | Hs : same_business_state (_, _) (_, _) |- _ =>
          let Hrows := fresh in
          destruct Hs as [Hs Hrows]; simpl in Hs, Hrows; subst
      | |- context [if ?b then _ else _] => destruct b; cbv beta iota zeta
      | |- same_business_state (_ ++ [_], _) (_ ++ [_], _) =>
          split; [reflexivity|]; cbn [fst snd];
          apply same_business_snoc; [assumption|apply dict_agree; solve_items]
      end
    | apply (for_each_rel same_business_state);
        [intros ? ? ? _ ?; cbv beta zeta|] ].

Section DeterminismRules.

Context `{Builtins}.

Lemma extract_policies_business root sf1 mt1 e1 sf2 mt2 e2 :
  Forall2 same_business_columns
    (_extract_policies root sf1 mt1 e1) (_extract_policies root sf2 mt2 e2).
Proof. unfold _extract_policies. cbv zeta. solve_rows. Qed.

Lemma extract_lines_business root sf1 e1 sf2 e2 :
  Forall2 same_business_columns
    (_extract_lines root sf1 e1) (_extract_lines root sf2 e2).
Proof. unfold _extract_lines. solve_rows. Qed.

Lemma extract_locations_business root sf1 e1 sf2 e2 :
  Forall2 same_business_columns
    (_extract_locations root sf1 e1) (_extract_locations root sf2 e2).
Proof. unfold _extract_locations. solve_rows. Qed.

Lemma extract_buildings_business root sf1 e1 sf2 e2 :
  Forall2 same_business_columns
    (_extract_buildings root sf1 e1) (_extract_buildings root sf2 e2).
Proof. unfold _extract_buildings. solve_rows. Qed.

Lemma extract_occupancies_business root sf1 e1 sf2 e2 :
  Forall2 same_business_columns
    (_extract_occupancies root sf1 e1) (_extract_occupancies root sf2 e2).
Proof. unfold _extract_occupancies. solve_rows. Qed.

Lemma extract_accounts_business root sf1 e1 sf2 e2 :
  Forall2 same_business_columns
    (_extract_accounts root sf1 e1) (_extract_accounts root sf2 e2).
Proof. unfold _extract_accounts. solve_rows. Qed.

Lemma extract_addresses_business root sf1 e1 sf2 e2 :
  Forall2 same_business_columns
    (_extract_addresses root sf1 e1) (_extract_addresses root sf2 e2).
Proof. unfold _extract_addresses. solve_rows. Qed.

Lemma same_business_state_rows (s1 s2 : list row * nat) :
  same_business_state s1 s2 →
  Forall2 same_business_columns
    (let '(records, _) := s1 in records) (let '(records, _) := s2 in records).
Proof. destruct s1, s2. by intros [_ ?]. Qed.

Lemma extract_coverages_business root sf1 e1 sf2 e2 :
  Forall2 same_business_columns
    (_extract_coverages root sf1 e1) (_extract_coverages root sf2 e2).
Proof.
  unfold _extract_coverages. apply same_business_state_rows. solve_states.
Qed.

Lemma extract_exposures_business root sf1 e1 sf2 e2 :
  Forall2 same_business_columns
    (_extract_exposures root sf1 e1) (_extract_exposures root sf2 e2).
Proof.
  unfold _extract_exposures. apply same_business_state_rows. solve_states.
Qed.

Lemma extract_limits_business root sf1 e1 sf2 e2 :
  Forall2 same_business_columns
    (_extract_limits root sf1 e1) (_extract_limits root sf2 e2).
Proof.
  unfold _extract_limits. apply same_business_state_rows. solve_states.
Qed.

Lemma extract_deductibles_business root sf1 e1 sf2 e2 :
  Forall2 same_business_columns
    (_extract_deductibles root sf1 e1) (_extract_deductibles root sf2 e2).
Proof.
  unfold _extract_deductibles. apply same_business_state_rows. solve_states.
Qed.

Lemma extract_underwriter_referrals_business root sf1 e1 sf2 e2 :
  Forall2 same_business_columns
    (_extract_underwriter_referrals root sf1 e1)
    (_extract_underwriter_referrals root sf2 e2).
Proof.
  unfold _extract_underwriter_referrals. apply same_business_state_rows.
  solve_states.
Qed.

Lemma extract_tax_surcharges_business root sf1 e1 sf2 e2 :
  Forall2 same_business_columns
    (_extract_tax_surcharges root sf1 e1)
    (_extract_tax_surcharges root sf2 e2).
Proof.
  unfold _extract_tax_surcharges. apply same_business_state_rows.
  solve_states.
Qed.

Lemma extract_rule_business table_name root sf1 mt1 e1 sf2 mt2 e2 :
  Forall2 same_business_columns
    (extract_rule table_name root sf1 mt1 e1)
    (extract_rule table_name root sf2 mt2 e2).
Proof.
  unfold extract_rule.
  repeat (case_bool_decide;
    [ eauto using extract_policies_business, extract_lines_business,
        extract_coverages_business, extract_exposures_business,
        extract_limits_business, extract_deductibles_business,
        extract_locations_business, extract_buildings_business,
        extract_occupancies_business, extract_accounts_business,
        extract_addresses_business, extract_underwriter_referrals_business,
        extract_tax_surcharges_business |]).
  constructor.
Qed.

End DeterminismRules.

(** ** Synthesized identifiers *)

Lemma string_app_cons a (s t : string) : String a s +:+ t = String a (s +:+ t).
Proof. reflexivity. Qed.

Lemma string_app_assoc (s1 s2 s3 : string) :
  (s1 +:+ s2) +:+ s3 = s1 +:+ s2 +:+ s3.
Proof.
  induction s1 as [|a s1 IH]; [done|]. by rewrite !string_app_cons, IH.
Qed.

Lemma has_underscore_app l d :
  has_underscore (l +:+ String "_" d) = true.
Proof.
  induction l as [|a l IH]; [done|].
  rewrite string_app_cons. simpl. rewrite IH. apply orb_true_r.
Qed.

Lemma last_segment_app l d :
  has_underscore d = false → last_segment (l +:+ "_" +:+ d) = d.
Proof.
  intros Hd. induction l as [|a l IH].
  - change ("" +:+ "_" +:+ d) with (String "_" d). simpl. by rewrite Hd.
  - rewrite string_app_cons. simpl.
    change ("_" +:+ d) with (String "_" d). by rewrite has_underscore_app.
Qed.

Lemma pretty_N_go_no_underscore x s :
  has_underscore s = false → has_underscore (pretty_N_go x s) = false.
Proof.
  revert s. induction (N.lt_wf_0 x) as [x _ IH]; intros s Hs.
  assert (x = 0 ∨ 0 < x)%N as [->|?] by lia.
  - by rewrite pretty_N_go_0.
  - rewrite pretty_N_go_step by done. apply IH.
    { by apply N.div_lt. }
    simpl. rewrite Hs. unfold pretty_N_char. by repeat case_match.
Qed.

Lemma pretty_nat_no_underscore (n : nat) : has_underscore (pretty n) = false.
Proof.
  unfold pretty, pretty_nat, pretty, pretty_N.
  case_decide; [done|]. by apply pretty_N_go_no_underscore.
Qed.

(** The counter can be read back from a synthesized identifier. *)
Lemma synthesized_inj l1 l2 (k1 k2 : nat) :
  l1 +:+ "_" +:+ pretty k1 = l2 +:+ "_" +:+ pretty k2 → k1 = k2.
Proof.
  intros Heq. apply (f_equal last_segment) in Heq.
  rewrite !last_segment_app in Heq by apply pretty_nat_no_underscore.
  by apply (inj pretty).
Qed.

Lemma next_counter_le always node c : c ≤ next_counter always node c.
Proof. unfold next_counter. case_match; lia. Qed.

Lemma next_counter_lt always node c :
  truthy (ET.get node "id") = false → c < next_counter always node c.
Proof.
  intros Hid. unfold next_counter. rewrite Hid, orb_true_r. lia.
Qed.

Lemma assigned_ids_snoc always c nodes n :
  assigned_ids always c (nodes ++ [n])
  = assigned_ids always c nodes
    ++ [assign n (next_counter always n.2 (final_counter always c nodes))].
Proof.
  revert c. induction nodes as [|m nodes IH]; intros c; [done|].
  simpl. by rewrite IH.
Qed.

Lemma final_counter_snoc always c nodes n :
  final_counter always c (nodes ++ [n])
  = next_counter always n.2 (final_counter always c nodes).
Proof.
  revert c. induction nodes as [|m nodes IH]; intros c; [done|].
  simpl. by rewrite IH.
Qed.

Lemma length_assigned_ids always c nodes :
  length (assigned_ids always c nodes) = length nodes.
Proof.
  revert c. induction nodes as [|m nodes IH]; intros c; [done|].
  simpl. by rewrite IH.
Qed.

(** A node without identifier gets a synthesized one, whose counter is
    greater than the counter the walk started from. *)
Lemma assigned_ids_lookup always nodes c j nj :
  nodes !! j = Some nj →
  truthy (ET.get nj.2 "id") = false →
  ∃ k, c < k
       ∧ assigned_ids always c nodes !! j
         = Some (Some (nj.1 +:+ "_" +:+ pretty k)).
Proof.
  revert c j. induction nodes as [|n nodes IH]; intros c j Hj Hid; [done|].
  destruct j as [|j]; simpl in *.
  - injection Hj as ->. exists (next_counter always nj.2 c).
    split; [by apply next_counter_lt|]. unfold assign. by rewrite Hid.
  - destruct (IH (next_counter always n.2 c) j Hj Hid) as (k & Hk & Hlookup).
    exists k. split; [|done].
    pose proof (next_counter_le always n.2 c). lia.
Qed.

(** The counters of two nodes without identifier are in visiting order. *)
Lemma assigned_ids_increasing always nodes c i j ni nj :
  i < j →
  nodes !! i = Some ni → nodes !! j = Some nj →
  truthy (ET.get ni.2 "id") = false →
  truthy (ET.get nj.2 "id") = false →
  ∃ ki kj, ki < kj
    ∧ assigned_ids always c nodes !! i
      = Some (Some (ni.1 +:+ "_" +:+ pretty ki))
    ∧ assigned_ids always c nodes !! j
      = Some (Some (nj.1 +:+ "_" +:+ pretty kj)).
Proof.
  revert c i j. induction nodes as [|n nodes IH]; intros c i j Hij Hi Hj Hni Hnj;
    [done|].
  destruct j as [|j]; [lia|]. destruct i as [|i]; simpl in *.
  - injection Hi as ->.
    destruct (assigned_ids_lookup always nodes (next_counter always ni.2 c)
      j nj Hj Hnj) as (kj & Hkj & Hlookup).
    exists (next_counter always ni.2 c), kj. split; [done|].
    split; [|done]. unfold assign. by rewrite Hni.
  - apply (IH (next_counter always n.2 c) i j); [lia|done..].
Qed.

Lemma assigned_ids_distinct always nodes i j ni nj :
  i ≠ j →
  nodes !! i = Some ni → nodes !! j = Some nj →
  truthy (ET.get ni.2 "id") = false →
  truthy (ET.get nj.2 "id") = false →
  assigned_ids always 0 nodes !! i ≠ assigned_ids always 0 nodes !! j.
Proof.
  intros Hij Hi Hj Hni Hnj Heq.
  destruct (decide (i < j)) as [Hlt|Hge].
  - destruct (assigned_ids_increasing always nodes 0 i j ni nj)
      as (ki & kj & Hk & Hli & Hlj); [done..|].
    rewrite Hli, Hlj in Heq. injection Heq as Heq%synthesized_inj. lia.
  - destruct (assigned_ids_increasing always nodes 0 j i nj ni)
      as (kj & ki & Hk & Hlj & Hli); [lia|done..|].
    rewrite Hli, Hlj in Heq. injection Heq as Heq%synthesized_inj. lia.
Qed.

(** A loop with a counter, followed along the nodes it visits. *)
Lemma for_each_follows {A S} (R : S → list visited → Prop) (xs : list A)
    (body : A → S → S) (f : A → list visited) s acc :
  (∀ x s acc, x ∈ xs → R s acc → R (body x s) (acc ++ f x)) →
  R s acc → R (for_each xs body s) (acc ++ (xs ≫= f)).
Proof.
  intros Hstep. revert s acc.
  induction xs as [|x xs IH]; intros s acc Hs.
  - by rewrite for_each_nil, app_nil_r.
  - rewrite for_each_cons, bind_cons, (assoc_L (++)). apply IH.
    + intros y t acc' Hy. apply Hstep. by right.
    + apply Hstep; [by left|done].
Qed.

Section Synthesized.

Context `{Builtins}.

Lemma opt_str_inj o1 o2 : opt_str o1 = opt_str o2 → o1 = o2.
Proof. destruct o1, o2; simpl; congruence. Qed.

Lemma dict_lookup_head k v items : dict ((k, v) :: items) !! k = Some v.
Proof. unfold dict. by rewrite list_to_map_cons, lookup_insert_eq. Qed.

Lemma follows_nil id_column always : follows id_column always ([], 0) [].
Proof. by split. Qed.

(** One more row, one more node. *)
Lemma follows_snoc id_column always records c nodes r n :
  follows id_column always (records, c) nodes →
  r !! id_column
  = Some (opt_str (assign n (next_counter always n.2 c))) →
  follows id_column always
    (records ++ [r], next_counter always n.2 c) (nodes ++ [n]).
Proof.
  intros [Hids Hc] Hr. simpl in Hids, Hc. split; simpl.
  - rewrite !fmap_app, assigned_ids_snoc, fmap_app, Hids, <-Hc.
    f_equal. simpl. by rewrite Hr.
  - by rewrite final_counter_snoc, Hc.
Qed.

Lemma follows_snoc_eq id_column always records c c' nodes r n :
  follows id_column always (records, c) nodes →
  c' = next_counter always n.2 c →
  r !! id_column = Some (opt_str (assign n c')) →
  follows id_column always (records ++ [r], c') (nodes ++ [n]).
Proof. intros Hs -> Hr. by apply follows_snoc. Qed.

(** The rows of the nodes without identifier differ in the identifier
    column, hence in their primary key. *)
Lemma follows_keys_distinct table_name id_column always state nodes :
  follows id_column always state nodes →
  (∀ r r' : row,
     pk_tuple table_name r = pk_tuple table_name r' →
     r !! id_column = r' !! id_column) →
  synthesized_keys_distinct table_name nodes
    (let '(records, _) := state in records).
Proof.
  destruct state as [records c]. intros [Hids _] Hpk. simpl in Hids.
  split.
  - apply (f_equal length) in Hids.
    by rewrite !length_fmap, length_assigned_ids in Hids.
  - intros i j ni nj ri rj Hij Hi Hj Hni Hnj Hri Hrj Heq.
    apply Hpk in Heq.
    apply (assigned_ids_distinct always nodes i j ni nj); [done..|].
    assert (∀ k (r : row), records !! k = Some r →
      Some (r !! id_column)
      = (λ o, Some (opt_str o)) <$> assigned_ids always 0 nodes !! k)
      as Hlookup.
    { intros k r Hk. rewrite <-list_lookup_fmap, <-Hids, list_lookup_fmap.
      by rewrite Hk. }
    pose proof (Hlookup i ri Hri) as Hi'.
    pose proof (Hlookup j rj Hrj) as Hj'. rewrite Heq in Hi'.
    rewrite Hi' in Hj'.
    destruct (assigned_ids always 0 nodes !! i) as [oi|],
      (assigned_ids always 0 nodes !! j) as [oj|]; simpl in Hj'; try done.
    injection Hj' as Hj'%opt_str_inj. by subst.
Qed.

End Synthesized.

(** The innermost step of a rule with a counter. *)
Ltac follow_step :=
  match goal with
  | Hs : follows _ _ ?s _ |- _ =>
      destruct s as [? ?];
      match goal with
      | |- context [truthy (ET.get ?node "id")] =>
          let Hid := fresh "Hid" in
          destruct (truthy (ET.get node "id")) eqn:Hid;
          cbv beta iota zeta;
          (eapply follows_snoc_eq;
           [exact Hs
           |unfold next_counter; simpl; rewrite ?Hid; reflexivity
           |rewrite dict_lookup_head; unfold assign, next_counter; simpl;
            rewrite ?Hid, ?string_app_assoc; reflexivity])
      end
  end.

Ltac follow_loops :=
  repeat first
    [ assumption
    | apply follows_nil
    | rewrite (assoc_L (++))
    | match goal with
      | |- follows ?c ?a (for_each _ _ _) (_ ++ (_ ≫= _)) =>
          apply (for_each_follows (follows c a));
            [intros ? ? ? _ ?; cbv beta zeta|]
      | |- follows ?c ?a (for_each _ _ _) (_ ≫= _) =>
          apply (for_each_follows (follows c a) _ _ _ _ []);
            [intros ? ? ? _ ?; cbv beta zeta|]
      end
    | follow_step ].

(** The primary key of a table starts with the given identifier column. *)
Ltac solve_pk_head :=
  let r := fresh "r" in let r' := fresh "r" in let Hpk := fresh "Hpk" in
  intros r r' Hpk; unfold pk_tuple in Hpk;
  match type of Hpk with
  | context [metadata !! ?t] =>
      let m := eval vm_compute in (metadata !! t) in
      change (metadata !! t) with m in Hpk
  end;
  by injection Hpk.

Section SynthesizedRules.

Context `{Builtins}.

Lemma extract_coverages_follows root source_file extracted_at :
  ∃ state,
    _extract_coverages root source_file extracted_at
    = (let '(records, _) := state in records)
    ∧ follows "coverage_id" false state (coverage_nodes root).
Proof.
  eexists. split; [reflexivity|]. unfold coverage_nodes, line_children. follow_loops.
Qed.

Lemma extract_coverages_distinct root source_file extracted_at :
  synthesized_keys_distinct "coverages" (coverage_nodes root)
    (_extract_coverages root source_file extracted_at).
Proof.
  destruct (extract_coverages_follows root source_file extracted_at)
    as (state & -> & Hfollows).
  eapply follows_keys_distinct; [done|solve_pk_head].
Qed.

Lemma extract_exposures_follows root source_file extracted_at :
  ∃ state,
    _extract_exposures root source_file extracted_at
    = (let '(records, _) := state in records)
    ∧ follows "exposure_id" false state (exposure_nodes root).
Proof.
  eexists. split; [reflexivity|]. unfold exposure_nodes, line_children. follow_loops.
Qed.

Lemma extract_exposures_distinct root source_file extracted_at :
  synthesized_keys_distinct "exposures" (exposure_nodes root)
    (_extract_exposures root source_file extracted_at).
Proof.
  destruct (extract_exposures_follows root source_file extracted_at)
    as (state & -> & Hfollows).
  eapply follows_keys_distinct; [done|solve_pk_head].
Qed.

Lemma extract_limits_follows root source_file extracted_at :
  ∃ state,
    _extract_limits root source_file extracted_at
    = (let '(records, _) := state in records)
    ∧ follows "limit_id" false state (limit_nodes root).
Proof.
  eexists. split; [reflexivity|]. unfold limit_nodes, line_children. follow_loops.
Qed.

Lemma extract_limits_distinct root source_file extracted_at :
  synthesized_keys_distinct "limits" (limit_nodes root)
    (_extract_limits root source_file extracted_at).
Proof.
  destruct (extract_limits_follows root source_file extracted_at)
    as (state & -> & Hfollows).
  eapply follows_keys_distinct; [done|solve_pk_head].
Qed.

Lemma extract_deductibles_follows root source_file extracted_at :
  ∃ state,
    _extract_deductibles root source_file extracted_at
    = (let '(records, _) := state in records)
    ∧ follows "deductible_id" false state (deductible_nodes root).
Proof.
  eexists. split; [reflexivity|]. unfold deductible_nodes, line_children. follow_loops.
Qed.

Lemma extract_deductibles_distinct root source_file extracted_at :
  synthesized_keys_distinct "deductibles" (deductible_nodes root)
    (_extract_deductibles root source_file extracted_at).
Proof.
  destruct (extract_deductibles_follows root source_file extracted_at)
    as (state & -> & Hfollows).
  eapply follows_keys_distinct; [done|solve_pk_head].
Qed.

Lemma extract_underwriter_referrals_follows root source_file extracted_at :
  ∃ state,
    _extract_underwriter_referrals root source_file extracted_at
    = (let '(records, _) := state in records)
    ∧ follows "referral_id" false state (referral_nodes root).
Proof.
  eexists. split; [reflexivity|]. unfold referral_nodes. follow_loops.
Qed.

Lemma extract_underwriter_referrals_distinct root source_file extracted_at :
  synthesized_keys_distinct "underwriter_referrals" (referral_nodes root)
    (_extract_underwriter_referrals root source_file extracted_at).
Proof.
  destruct (extract_underwriter_referrals_follows root source_file extracted_at)
    as (state & -> & Hfollows).
  eapply follows_keys_distinct; [done|solve_pk_head].
Qed.

Lemma extract_tax_surcharges_follows root source_file extracted_at :
  ∃ state,
    _extract_tax_surcharges root source_file extracted_at
    = (let '(records, _) := state in records)
    ∧ follows "tax_surcharge_id" true state (tax_nodes root).
Proof.
  eexists. split; [reflexivity|]. unfold tax_nodes. follow_loops.
Qed.

Lemma extract_tax_surcharges_distinct root source_file extracted_at :
  synthesized_keys_distinct "tax_surcharges" (tax_nodes root)
    (_extract_tax_surcharges root source_file extracted_at).
Proof.
  destruct (extract_tax_surcharges_follows root source_file extracted_at)
    as (state & -> & Hfollows).
  eapply follows_keys_distinct; [done|solve_pk_head].
Qed.

(** C2. Within one file, the rows a rule produces for the
    nodes that carry no identifier of their own ([coverage], [exposure],
    [limit], [deductible], [UnderwriterReferral] and tax-surcharge nodes)
    have pairwise distinct primary keys: their synthesized identifiers end
    in the value of a per-file counter that increases from node to node.
    Nothing is said across files or about explicit identifiers. *)
Theorem synthesized_keys_distinct_within_file
    root source_file extracted_at :
  synthesized_keys_distinct "coverages" (coverage_nodes root)
    (_extract_coverages root source_file extracted_at)
  ∧ synthesized_keys_distinct "exposures" (exposure_nodes root)
      (_extract_exposures root source_file extracted_at)
  ∧ synthesized_keys_distinct "limits" (limit_nodes root)
      (_extract_limits root source_file extracted_at)
  ∧ synthesized_keys_distinct "deductibles" (deductible_nodes root)
      (_extract_deductibles root source_file extracted_at)
  ∧ synthesized_keys_distinct "underwriter_referrals" (referral_nodes root)
      (_extract_underwriter_referrals root source_file extracted_at)
  ∧ synthesized_keys_distinct "tax_surcharges" (tax_nodes root)
      (_extract_tax_surcharges root source_file extracted_at).
Proof.
  split; [apply extract_coverages_distinct|].
  split; [apply extract_exposures_distinct|].
  split; [apply extract_limits_distinct|].
  split; [apply extract_deductibles_distinct|].
  split; [apply extract_underwriter_referrals_distinct|].
  apply extract_tax_surcharges_distinct.
Qed.

End SynthesizedRules.

(** ** Determinism *)

Section DeterminismTheorem.

Context `{Builtins}.

Lemma follows_ids id_column always state nodes :
  follows id_column always state nodes →
  ids_follow_counter id_column always nodes
    (let '(records, _) := state in records).
Proof. destruct state. by intros [? _]. Qed.

(** C1. Running the extraction rule of a table twice on the same document
    yields the same primary keys and foreign keys in the same order,
    whatever the extraction timestamp (and the file name and modification
    time) of each run.  The identifiers a rule synthesizes are those
    assigned along the nodes it visits: the prefix made of the entity tag
    and the ancestor identifiers, and the value of a counter that starts
    from zero for the document. *)
Theorem extract_rule_keys_deterministic
    table_name root source_file1 file_mtime1 extracted_at1
    source_file2 file_mtime2 extracted_at2 :
  key_tuple table_name
    <$> extract_rule table_name root source_file1 file_mtime1 extracted_at1
  = key_tuple table_name
    <$> extract_rule table_name root source_file2 file_mtime2 extracted_at2
  ∧ ids_follow_counter "coverage_id" false (coverage_nodes root)
      (_extract_coverages root source_file1 extracted_at1)
  ∧ ids_follow_counter "exposure_id" false (exposure_nodes root)
      (_extract_exposures root source_file1 extracted_at1)
  ∧ ids_follow_counter "limit_id" false (limit_nodes root)
      (_extract_limits root source_file1 extracted_at1)
  ∧ ids_follow_counter "deductible_id" false (deductible_nodes root)
      (_extract_deductibles root source_file1 extracted_at1)
  ∧ ids_follow_counter "referral_id" false (referral_nodes root)
      (_extract_underwriter_referrals root source_file1 extracted_at1)
  ∧ ids_follow_counter "tax_surcharge_id" true (tax_nodes root)
      (_extract_tax_surcharges root source_file1 extracted_at1).
Proof.
  split; [apply key_tuple_agree, extract_rule_business|].
  destruct (extract_coverages_follows root source_file1 extracted_at1)
    as (s1 & -> & H1%follows_ids).
  destruct (extract_exposures_follows root source_file1 extracted_at1)
    as (s2 & -> & H2%follows_ids).
  destruct (extract_limits_follows root source_file1 extracted_at1)
    as (s3 & -> & H3%follows_ids).
  destruct (extract_deductibles_follows root source_file1 extracted_at1)
    as (s4 & -> & H4%follows_ids).
  destruct (extract_underwriter_referrals_follows root source_file1
    extracted_at1) as (s5 & -> & H5%follows_ids).
  destruct (extract_tax_surcharges_follows root source_file1 extracted_at1)
    as (s6 & -> & H6%follows_ids).
  done.
Qed.

End DeterminismTheorem.

(** ** Records and the schema catalog *)

Section Columns.

Context `{Builtins}.

Lemma dict_has_columns cols (items : list (string * value)) :
  items.*1 = cols → has_columns cols (dict items).
Proof. intros <-. unfold has_columns, dict. apply dom_list_to_map_L. Qed.

Lemma has_columns_snoc cols (records : list row) r :
  Forall (has_columns cols) records → has_columns cols r →
  Forall (has_columns cols) (records ++ [r]).
Proof. intros ??. apply Forall_app. split; [done|]. by constructor. Qed.

End Columns.

Ltac solve_columns :=
  repeat first
    [ assumption
    | match goal with
      | |- Forall _ [] => constructor
      | |- Forall _ (_, _).1 => cbn [fst]
      | Hs : Forall _ (_, _).1 |- _ => cbn [fst] in Hs
      | |- Forall _ (match ?s with (_, _) => _ end).1 =>
          is_var s; destruct s
      | |- Forall _ (_ ++ [_]) =>
          apply has_columns_snoc; [|apply dict_has_columns; reflexivity]
      | |- context [if ?b then _ else _] => destruct b; cbv beta iota zeta
      end
    | apply (for_each_invariant (Forall (has_columns _)));
        [intros ? ? _ ?; cbv beta zeta|]
    | apply (for_each_invariant (λ s : list row * nat,
               Forall (has_columns _) s.1));
        [intros ? ? _ ?; cbv beta zeta|] ].

Section ColumnsRules.

Context `{Builtins}.

Lemma state_rows_columns cols (s : list row * nat) :
  Forall (has_columns cols) s.1 →
  Forall (has_columns cols) (let '(records, _) := s in records).
Proof. by destruct s. Qed.

Lemma extract_policies_columns root sf mt e :
  Forall (has_columns (schema_columns "policies"))
    (_extract_policies root sf mt e).
Proof. unfold _extract_policies. cbv zeta. solve_columns. Qed.

Lemma extract_lines_columns root sf e :
  Forall (has_columns (schema_columns "lines")) (_extract_lines root sf e).
Proof. unfold _extract_lines. solve_columns. Qed.

Lemma extract_coverages_columns root sf e :
  Forall (has_columns (schema_columns "coverages"))
    (_extract_coverages root sf e).
Proof.
  unfold _extract_coverages. apply state_rows_columns. solve_columns.
Qed.

Lemma extract_exposures_columns root sf e :
  Forall (has_columns (schema_columns "exposures"))
    (_extract_exposures root sf e).
Proof.
  unfold _extract_exposures. apply state_rows_columns. solve_columns.
Qed.

Lemma extract_limits_columns root sf e :
  Forall (has_columns (schema_columns "limits")) (_extract_limits root sf e).
Proof. unfold _extract_limits. apply state_rows_columns. solve_columns. Qed.

Lemma extract_deductibles_columns root sf e :
  Forall (has_columns (schema_columns "deductibles"))
    (_extract_deductibles root sf e).
Proof.
  unfold _extract_deductibles. apply state_rows_columns. solve_columns.
Qed.

Lemma extract_locations_columns root sf e :
  Forall (has_columns (schema_columns "locations"))
    (_extract_locations root sf e).
Proof. unfold _extract_locations. solve_columns. Qed.

Lemma extract_buildings_columns root sf e :
  Forall (has_columns (schema_columns "buildings"))
    (_extract_buildings root sf e).
Proof. unfold _extract_buildings. solve_columns. Qed.

Lemma extract_occupancies_columns root sf e :
  Forall (has_columns (schema_columns "occupancies"))
    (_extract_occupancies root sf e).
Proof. unfold _extract_occupancies. solve_columns. Qed.

Lemma extract_accounts_columns root sf e :
  Forall (has_columns (schema_columns "accounts"))
    (_extract_accounts root sf e).
Proof. unfold _extract_accounts. solve_columns. Qed.

Lemma extract_addresses_columns root sf e :
  Forall (has_columns (schema_columns "addresses"))
    (_extract_addresses root sf e).
Proof. unfold _extract_addresses. solve_columns. Qed.

Lemma extract_underwriter_referrals_columns root sf e :
  Forall (has_columns (schema_columns "underwriter_referrals"))
    (_extract_underwriter_referrals root sf e).
Proof.
  unfold _extract_underwriter_referrals. apply state_rows_columns.
  solve_columns.
Qed.

Lemma extract_tax_surcharges_columns root sf e :
  Forall (has_columns (schema_columns "tax_surcharges"))
    (_extract_tax_surcharges root sf e).
Proof.
  unfold _extract_tax_surcharges. apply state_rows_columns. solve_columns.
Qed.

(** X1. Every record a rule emits has exactly the columns the schema
    interface declares for its table, no more and no fewer. *)
Theorem rows_have_schema_columns
    table_name root source_file file_mtime extracted_at :
  Forall (has_columns (schema_columns table_name))
    (extract_rule table_name root source_file file_mtime extracted_at).
Proof.
  unfold extract_rule.
  repeat (case_bool_decide;
    [ subst;
      eauto using extract_policies_columns, extract_lines_columns,
        extract_coverages_columns, extract_exposures_columns,
        extract_limits_columns, extract_deductibles_columns,
        extract_locations_columns, extract_buildings_columns,
        extract_occupancies_columns, extract_accounts_columns,
        extract_addresses_columns, extract_underwriter_referrals_columns,
        extract_tax_surcharges_columns |]).
  constructor.
Qed.

(** X2. The schema and metadata interfaces answer for the thirteen table
    names of the catalog and raise the unknown-table error for every other
    name. *)
Theorem catalog_interfaces_total table_name table_options :
  if bool_decide (table_name ∈ list_tables)
  then (∃ schema, get_table_schema table_name table_options = Ok schema)
       ∧ (∃ m, read_table_metadata table_name table_options = Ok m)
  else get_table_schema table_name table_options
       = Raise (ValueError ("Unknown table: " +:+ table_name))
       ∧ read_table_metadata table_name table_options
         = Raise (ValueError ("Unknown table: " +:+ table_name)).
Proof.
  case_bool_decide.
  - by apply catalog_known.
  - split; [by apply get_table_schema_unknown
           |by apply read_table_metadata_unknown].
Qed.

End ColumnsRules.

(** ** Invariants of the rows of a rule *)

Lemma Forall_snoc {A} (P : A → Prop) (l : list A) x :
  Forall P l → P x → Forall P (l ++ [x]).
Proof. intros ??. apply Forall_app. split; [done|]. by constructor. Qed.

Lemma Forall_bind_list {A B} (P : B → Prop) (f : A → list B) (l : list A) :
  (∀ x, x ∈ l → Forall P (f x)) → Forall P (l ≫= f).
Proof.
  intros Hf. apply Forall_forall. intros y (x & Hy & Hx)%list_elem_of_bind.
  by eapply Forall_forall; [apply Hf|].
Qed.

(** A property of every row a rule emits, loop by loop; [tac] proves it for
    the record built in the innermost loop. *)
Ltac solve_forall tac :=
  repeat first
    [ assumption
    | match goal with
      | |- Forall _ [] => constructor
      | |- Forall _ (_, _).1 => cbn [fst]
      | Hs : Forall _ (_, _).1 |- _ => cbn [fst] in Hs
      | |- Forall _ (match ?s with (_, _) => _ end).1 =>
          is_var s; destruct s
      | |- Forall _ (_ ++ [_]) => apply Forall_snoc; [|tac]
      | |- context [if ?b then _ else _] =>
          destruct b eqn:?; cbv beta iota zeta
      end
    | apply (for_each_invariant (Forall _));
        [intros ? ? ? ?; cbv beta zeta|]
    | apply (for_each_invariant (λ s : list row * nat, Forall _ s.1));
        [intros ? ? ? ?; cbv beta zeta|] ].

Lemma state_rows_forall `{Builtins} (P : row → Prop) (s : list row * nat) :
  Forall P s.1 → Forall P (let '(records, _) := s in records).
Proof. by destruct s. Qed.

(** The same, for the rule of each table. *)
Ltac each_rule tac :=
  unfold extract_rule;
  repeat (case_bool_decide;
    [ unfold _extract_policies, _extract_lines, _extract_coverages,
        _extract_exposures, _extract_limits, _extract_deductibles,
        _extract_locations, _extract_buildings, _extract_occupancies,
        _extract_accounts, _extract_addresses,
        _extract_underwriter_referrals, _extract_tax_surcharges;
      cbv zeta; try apply state_rows_forall; tac |]);
  constructor.

Section Provenance.

Context `{Builtins}.

Implicit Types (w : World) (self : LakeflowConnect).

Lemma extract_rule_stamped table_name root sf mt e :
  Forall (stamped sf e) (extract_rule table_name root sf mt e).
Proof. each_rule ltac:(solve_forall ltac:(split; reflexivity)). Qed.

(** The column the metadata interface declares as cursor holds the
    modification time of the file for [policies] and the timestamp of the
    call for every other table. *)
Lemma extract_rule_cursor table_name m root sf mt e :
  metadata !! table_name = Some m →
  Forall (holds_str (cursor_field m)
            (if bool_decide (table_name = "policies") then mt else e))
    (extract_rule table_name root sf mt e).
Proof.
  intros Hm.
  destruct (decide (table_name ∈ list_tables)) as [Hin|Hout];
    [|by rewrite metadata_unknown in Hm].
  unfold list_tables in Hin. rewrite !elem_of_cons, elem_of_nil in Hin.
  destruct Hin as [->|Hin].
  - vm_compute in Hm. injection Hm as <-. unfold extract_rule, _extract_policies.
    rewrite !bool_decide_eq_true_2 by done. cbv zeta.
    solve_forall ltac:(reflexivity).
  - repeat destruct Hin as [->|Hin]; [..|done].
    all: vm_compute in Hm; injection Hm as <-.
    all: eapply Forall_impl; [apply extract_rule_stamped|].
    all: intros r [_ Hr]; exact Hr.
Qed.

Lemma rows_of_file_forall (P : string → string → row → Prop)
    w table_name files :
  (∀ p m root, (p, m) ∈ files → xml_root w p = Some root →
     Forall (P p m)
       (extract_rule table_name root (basename p) m (utcnow_iso w))) →
  Forall (λ r, ∃ p m, (p, m) ∈ files ∧ is_Some (xml_root w p) ∧ P p m r)
    (files ≫= rows_of_file w table_name).
Proof.
  intros Hrule. apply Forall_bind_list. intros [p m] Hfile.
  unfold rows_of_file. simpl.
  destruct (xml_root w p) as [root|] eqn:Hroot; [|constructor].
  eapply Forall_impl; [by apply Hrule|].
  intros r Hr. exists p, m. by rewrite Hroot.
Qed.

Lemma elem_of_select_files w xml_files last_modified_time p m :
  (p, m) ∈ (select_files w xml_files last_modified_time).1 ↔
  p ∈ xml_files ∧ selected_by w last_modified_time p
  ∧ m = getmtime_iso w p.
Proof.
  rewrite select_files_eq, list_elem_of_fmap. unfold selected_by. split.
  - intros (q & [= -> ->] & [??]%list_elem_of_filter). done.
  - intros (Hp & Hsel & ->). exists p. split; [done|].
    by apply list_elem_of_filter.
Qed.


(** X5. Every record a read call returns comes from a matching file that
    the call selected and that parses, whose base name it holds in
    [source_file], and holds a string in the column the metadata interface
    declares as the cursor of its table: for [policies] the modification
    time of that file, for every other table the timestamp of the call.
    The modification time of that file is strictly newer than a non-empty
    incoming watermark and at most the watermark the call returns.  No
    record is returned for a name without metadata. *)
Theorem read_table_rows_cursor
    self w table_name start_offset table_options :
  let last_modified_time :=
    default "" (start_offset !! "last_modified_time") in
  ∃ records outgoing,
    read_table self w table_name start_offset table_options
    = outcome
        (first_failure w
           (select_files w (_get_xml_files self w) last_modified_time).1)
        (records, {[ "last_modified_time" := outgoing ]})
    ∧ match metadata !! table_name with
      | None => records = []
      | Some m =>
          Forall (λ r, ∃ p,
            p ∈ _get_xml_files self w
            ∧ is_Some (xml_root w p)
            ∧ holds_str "source_file" (basename p) r
            ∧ holds_str (cursor_field m)
                (if bool_decide (table_name = "policies")
                 then getmtime_iso w p else utcnow_iso w) r
            ∧ (last_modified_time = ""
               ∨ strictly_newer last_modified_time (getmtime_iso w p))
            ∧ (getmtime_iso w p ≤ outgoing)%string) records
      end.
Proof.
  intros lmt.
  destruct (read_table_watermark self w table_name start_offset
    table_options) as [Hread (_ & _ & _ & Hmax)].
  fold lmt in Hread, Hmax. simpl in Hmax.
  eexists _, _. split; [exact Hread|].
  destruct (metadata !! table_name) as [m|] eqn:Hm.
  - eapply Forall_impl.
    + apply (rows_of_file_forall (λ p mt r,
        holds_str "source_file" (basename p) r
        ∧ holds_str (cursor_field m)
            (if bool_decide (table_name = "policies")
             then mt else utcnow_iso w) r)).
      intros p mt root _ _. apply Forall_and. split.
      * eapply Forall_impl; [apply extract_rule_stamped|].
        by intros r [? _].
      * by apply extract_rule_cursor.
    + intros r (p & mt & Hsel & Hroot & Hsource & Hcursor).
      assert (mt ≤ (select_files w (_get_xml_files self w) lmt).2)%string
        as Hle by (apply Hmax, list_elem_of_fmap; by exists (p, mt)).
      apply elem_of_select_files in Hsel as (Hp & Hsel & ->).
      by exists p.
  - assert (table_name ∉ list_tables) as Hunknown.
    { intros Hin. destruct (catalog_known table_name ∅ Hin)
        as [_ [m' Hm']]. unfold read_table_metadata in Hm'.
      by rewrite Hm in Hm'. }
    generalize (select_files w (_get_xml_files self w) lmt).1.
    induction l as [|[p mt] files IH]; [done|].
    rewrite bind_cons, IH, app_nil_r. unfold rows_of_file. simpl.
    destruct (xml_root w p); [|done]. by apply extract_rule_unknown.
Qed.

End Provenance.

(** ** Successive read calls *)

Lemma filter_sublist_impl {A} (P Q : A → Prop)
    `{!∀ x, Decision (P x), !∀ x, Decision (Q x)} (l : list A) :
  (∀ x, x ∈ l → P x → Q x) → filter P l `sublist_of` filter Q l.
Proof.
  induction l as [|x l IH]; intros HPQ; [done|].
  assert (filter P l `sublist_of` filter Q l) as Hl.
  { apply IH. intros y Hy. apply HPQ. by right. }
  destruct (decide (P x)) as [HP|HP].
  - rewrite (filter_cons_True P), (filter_cons_True Q); [|by apply HPQ; [left|]|done].
    by constructor.
  - rewrite (filter_cons_False P) by done. destruct (decide (Q x)).
    + rewrite (filter_cons_True Q) by done. by constructor.
    + by rewrite (filter_cons_False Q).
Qed.

Lemma filter_none {A} (P : A → Prop) `{!∀ x, Decision (P x)} (l : list A) :
  (∀ x, x ∈ l → ¬ P x) → filter P l = [].
Proof.
  induction l as [|x l IH]; intros HP; [done|].
  rewrite filter_cons_False by (apply HP; left). apply IH.
  intros y Hy. apply HP. by right.
Qed.

Lemma not_strictly_newer_le a b : ¬ strictly_newer a b → (b ≤ a)%string.
Proof.
  intros Hnot. apply ltb_false_le. destruct (String.ltb a b) eqn:Hlt; [|done].
  by apply ltb_strictly_newer in Hlt.
Qed.

Lemma lookup_offset (v : string) :
  default "" (({[ "last_modified_time" := v ]} : gmap string string)
              !! "last_modified_time") = v.
Proof. by rewrite lookup_singleton_eq. Qed.

Lemma Forall2_bind_same {A B C} (R : B → C → Prop)
    (f : A → list B) (g : A → list C) (l : list A) :
  (∀ x, Forall2 R (f x) (g x)) → Forall2 R (l ≫= f) (l ≫= g).
Proof.
  intros Hfg. induction l as [|x l IH]; [constructor|].
  rewrite !bind_cons. by apply Forall2_app.
Qed.

(** ** Two runs of a rule at two times of the clock *)

Lemma dict_same_but_timestamp `{Builtins}
    (items1 items2 : list (string * value)) :
  Forall2 (λ kv1 kv2, kv1.1 = kv2.1
                      ∧ (kv1.1 ≠ "_extracted_at" → kv1.2 = kv2.2))
    items1 items2 →
  same_but_timestamp (dict items1) (dict items2).
Proof.
  intros Hitems c Hc. unfold dict.
  induction Hitems as [|[k1 v1] [k2 v2] l1 l2 [Hk Hv] _ IH]; [done|].
  simpl in Hk, Hv. subst k2. rewrite !list_to_map_cons, !lookup_insert.
  destruct (decide (k1 = c)) as [->|]; [|done]. f_equal. by apply Hv.
Qed.

Lemma same_but_timestamp_snoc `{Builtins} (records1 records2 : list row)
    r1 r2 :
  Forall2 same_but_timestamp records1 records2 →
  same_but_timestamp r1 r2 →
  Forall2 same_but_timestamp (records1 ++ [r1]) (records2 ++ [r2]).
Proof. intros ??. apply Forall2_app; [done|]. by constructor. Qed.

Lemma same_but_timestamp_state_rows `{Builtins} (s1 s2 : list row * nat) :
  same_but_timestamp_state s1 s2 →
  Forall2 same_but_timestamp
    (let '(records, _) := s1 in records) (let '(records, _) := s2 in records).
Proof. destruct s1, s2. by intros [_ ?]. Qed.

(** The items of two dictionary displays agree but for the timestamp. *)
Ltac solve_items_at :=
  repeat (constructor;
    [split;
      [reflexivity
      |simpl; first
        [ intros _; reflexivity
        | let Hc := fresh in intros Hc; exfalso; by apply Hc ]]
    |]);
  constructor.

Ltac solve_rows_at :=
  repeat first
    [ assumption
    | match goal with |- Forall2 _ [] [] => constructor end
    | apply same_but_timestamp_snoc;
        [|apply dict_same_but_timestamp; solve_items_at]
    | apply (for_each_rel (Forall2 same_but_timestamp));
        [intros ? ? ? _ ?; cbv beta zeta|] ].

Ltac solve_states_at :=
  repeat first
    [ assumption
    | match goal with
      | |- same_but_timestamp_state ([], 0) ([], 0) =>
          split; [done|constructor]
      | |- same_but_timestamp_state (match ?s with (_, _) => _ end) _ =>
          is_var s; destruct s
      | |- same_but_timestamp_state _ (match ?s with (_, _) => _ end) =>
          is_var s; destruct s
      | Hs : same_but_timestamp_state (_, _) (_, _) |- _ =>
          let Hrows := fresh in
          destruct Hs as [Hs Hrows]; simpl in Hs, Hrows; subst
      | |- context [if ?b then _ else _] => destruct b; cbv beta iota zeta
      | |- same_but_timestamp_state (_ ++ [_], _) (_ ++ [_], _) =>
          split; [reflexivity|]; cbn [fst snd];
          apply same_but_timestamp_snoc;
            [assumption|apply dict_same_but_timestamp; solve_items_at]
      end
    | apply (for_each_rel same_but_timestamp_state);
        [intros ? ? ? _ ?; cbv beta zeta|] ].

(** Run at two times of the clock on the same document, for the same file,
    a rule gives the same records but for the extraction timestamp. *)
Lemma extract_rule_same_but_timestamp `{Builtins}
    table_name root sf mt e1 e2 :
  Forall2 same_but_timestamp
    (extract_rule table_name root sf mt e1)
    (extract_rule table_name root sf mt e2).
Proof.
  unfold extract_rule.
  repeat (case_bool_decide;
    [ unfold _extract_policies, _extract_lines, _extract_coverages,
        _extract_exposures, _extract_limits, _extract_deductibles,
        _extract_locations, _extract_buildings, _extract_occupancies,
        _extract_accounts, _extract_addresses,
        _extract_underwriter_referrals, _extract_tax_surcharges;
      cbv zeta;
      first [ apply same_but_timestamp_state_rows; solve_states_at
            | solve_rows_at ] |]);
  constructor.
Qed.

Section Successive.

Context `{Builtins}.

Implicit Types (w : World) (self : LakeflowConnect).

(** No matching file is newer than the watermark a call returns, whether
    the call selects it or not. *)
Lemma mtime_le_outgoing w xml_files last_modified_time p :
  p ∈ xml_files →
  (getmtime_iso w p
     ≤ (select_files w xml_files last_modified_time).2)%string.
Proof.
  intros Hp.
  pose proof (select_files_inv w xml_files last_modified_time) as Hinv.
  destruct (select_files w xml_files last_modified_time)
    as [files mx] eqn:Hsel.
  destruct Hinv as (Hle & _ & _ & Hmax). simpl.
  destruct (decide (selected_by w last_modified_time p)) as [Hyes|Hno].
  - apply Hmax, list_elem_of_fmap. exists (p, getmtime_iso w p).
    split; [done|].
    change files with (files, mx).1. rewrite <-Hsel.
    by apply elem_of_select_files.
  - trans last_modified_time; [|done].
    apply not_strictly_newer_le. intros Hnewer. apply Hno. by right.
Qed.

Lemma select_files_none w xml_files watermark :
  (∀ p, p ∈ xml_files → ¬ selected_by w watermark p) →
  select_files w xml_files watermark = ([], watermark).
Proof.
  intros Hnone.
  pose proof (select_files_inv w xml_files watermark) as Hinv.
  pose proof (select_files_eq w xml_files watermark) as Heq.
  destruct (select_files w xml_files watermark) as [files mx].
  simpl in Heq. destruct Hinv as (_ & Hnil & _).
  assert (files = []) as ->; [|by rewrite Hnil].
  rewrite Heq, filter_none; [done|]. intros p Hp. by apply Hnone.
Qed.

(** X6. When the modification time of every matching file is a non-empty
    string, a later call on the unchanged directory listing and
    modification times, started from the offset a first call returns,
    returns no record and the same offset, whatever the table, the clock
    and what the files contain.  (The first call returns unless parsing a
    selected file raises an exception other than [ET.ParseError].) *)
Theorem second_read_returns_nothing
    self w table_name table_name' start_offset
    table_options table_options' xml_parse' utcnow_iso' :
  (∀ p, p ∈ _get_xml_files self w → getmtime_iso w p ≠ "") →
  ∃ records new_offset,
    read_table self w table_name start_offset table_options
    = outcome
        (first_failure w
           (select_files w (_get_xml_files self w)
              (default "" (start_offset !! "last_modified_time"))).1)
        (records, new_offset)
    ∧ read_table self (with_contents w xml_parse' utcnow_iso')
        table_name' new_offset table_options'
      = Ok ([], new_offset).
Proof.
  intros Hmtime. eexists _, _. split; [apply read_table_eq|].
  set (lmt := default "" (start_offset !! "last_modified_time")).
  set (outgoing := (select_files w (_get_xml_files self w) lmt).2).
  set (w' := with_contents w xml_parse' utcnow_iso').
  pose proof (read_table_eq self w' table_name'
    {[ "last_modified_time" := outgoing ]} table_options') as Hread.
  cbv zeta in Hread. rewrite lookup_offset in Hread. rewrite Hread.
  change (_get_xml_files self w') with (_get_xml_files self w).
  rewrite (select_files_none w'); [done|].
  change (selected_by w') with (selected_by w).
  intros p Hp Hsel.
  assert (getmtime_iso w p ≤ outgoing)%string as Hle
    by (by apply mtime_le_outgoing).
  destruct Hsel as [Hempty|[Hge Hne]].
  - apply (Hmtime p Hp). apply (anti_symm String.le); [|apply empty_le].
    by rewrite Hempty in Hle.
  - apply Hne. by apply (anti_symm String.le).
Qed.


(** X8. Of two calls on the same directory and files, at two times of the
    clock, the one started from the later watermark returns, up to the
    extraction timestamp, a sub-sequence of the records of the other, and
    an offset that is not earlier.  (A call returns unless parsing a
    selected file raises an exception other than [ET.ParseError].) *)
Theorem later_watermark_reads_less
    self w table_name start_offset start_offset'
    table_options table_options' utcnow_iso' :
  let last_modified_time :=
    default "" (start_offset !! "last_modified_time") in
  let last_modified_time' :=
    default "" (start_offset' !! "last_modified_time") in
  let w' := with_clock w utcnow_iso' in
  let selected :=
    (select_files w (_get_xml_files self w) last_modified_time).1 in
  let selected' :=
    (select_files w' (_get_xml_files self w') last_modified_time').1 in
  (last_modified_time ≤ last_modified_time')%string →
  ∃ records records' outgoing outgoing',
    read_table self w table_name start_offset table_options
    = outcome (first_failure w selected)
        (records, {[ "last_modified_time" := outgoing ]})
    ∧ read_table self w' table_name start_offset' table_options'
      = outcome (first_failure w' selected')
          (records', {[ "last_modified_time" := outgoing' ]})
    ∧ (∃ sub, sub `sublist_of` records
              ∧ Forall2 same_but_timestamp records' sub)
    ∧ (outgoing ≤ outgoing')%string.
Proof.
  intros lmt lmt' w' selected selected' Hle. eexists _, _, _, _.
  split; [apply read_table_eq|]. split; [apply read_table_eq|].
  fold lmt lmt'. subst selected selected'.
  change (_get_xml_files self w') with (_get_xml_files self w).
  change (select_files w') with (select_files w).
  set (xml_files := _get_xml_files self w).
  assert (∀ p, selected_by w lmt' p → selected_by w lmt p) as Himpl.
  { intros p [Hempty|[Hge Hne]].
    - left. apply (anti_symm String.le); [|apply empty_le].
      by rewrite Hempty in Hle.
    - destruct (decide (lmt = "")) as [?|Hlmt]; [by left|]. right.
      split; [by etrans|]. intros Heq. apply Hne.
      apply (anti_symm String.le); [done|]. by rewrite <-Heq. }
  split.
  - exists ((select_files w xml_files lmt').1 ≫= rows_of_file w table_name).
    split.
    + apply bind_sublist. rewrite !select_files_eq. apply fmap_sublist.
      apply filter_sublist_impl. intros p _. apply Himpl.
    + apply Forall2_bind_same. intros [p m]. unfold rows_of_file.
      change (xml_root w' (p, m).1) with (xml_root w (p, m).1).
      destruct (xml_root w (p, m).1); [|constructor].
      apply extract_rule_same_but_timestamp.
  - pose proof (select_files_inv w xml_files lmt) as Hinv.
    pose proof (select_files_inv w xml_files lmt') as Hinv'.
    destruct (select_files w xml_files lmt) as [files mx] eqn:Hsel.
    destruct Hinv as (_ & Hnil & Hin & _). simpl.
    destruct files as [|file files].
    { rewrite Hnil by done. trans lmt'; [done|].
      destruct (select_files w xml_files lmt'). by destruct Hinv'. }
    apply list_elem_of_fmap in Hin as ([p m] & Hmx & Hfile); [|done].
    change (file :: files) with (file :: files, mx).1 in Hfile.
    rewrite <-Hsel in Hfile.
    apply elem_of_select_files in Hfile as (Hp & _ & ->).
    rewrite Hmx. by apply mtime_le_outgoing.
Qed.

End Successive.

(** ** The catalog *)

(** X9. The table names are pairwise distinct, and for each of them the
    schema interface and the metadata interface agree: the schema has no
    repeated column, the primary keys are distinct columns of the schema
    declared as non-nullable strings, the cursor is a string column of the
    schema, and the ingestion type is [cdc]. *)
Theorem catalog_consistent table_options table_options' :
  NoDup list_tables
  ∧ Forall (λ table_name, ∃ schema m,
      get_table_schema table_name table_options = Ok schema
      ∧ read_table_metadata table_name table_options' = Ok m
      ∧ keys_declared schema m) list_tables.
Proof.
  split; [compute_done|].
  unfold list_tables. repeat apply Forall_cons_2; [..|constructor].
  all: eexists _, _; split; [reflexivity|]; split; [reflexivity|].
  all: unfold keys_declared.
  all: split; [compute_done|].
  all: split; [done|]. 
  all: split; [compute_done|].
  all: split; [repeat constructor|by split].
Qed.

(** ** Identifiers of the rules with a counter *)

Lemma truthy_true o : truthy o = true → ∃ s, o = Some s ∧ s ≠ "".
Proof. destruct o as [[|a s]|]; [done| |done]. intros _. by eexists. Qed.

(** The identifier column of the record built in the innermost loop of a
    rule with a counter. *)
Ltac solve_id :=
  unfold holds_nonempty_str; rewrite dict_lookup_head;
  first
    [ match goal with
      | Hid : truthy ?o = true |- _ =>
          let s := fresh "s" in
          apply truthy_true in Hid as (s & -> & ?); by exists s
      end
    | eexists; split; [reflexivity|by rewrite string_app_cons] ].

Section Identifiers.

Context `{Builtins}.

(** X10. The rules that synthesize identifiers never emit a record whose
    identifier is null or empty: the identifier column of every record of
    [coverages], [exposures], [limits], [deductibles],
    [underwriter_referrals] and [tax_surcharges] holds a non-empty
    string. *)
Theorem synthesizing_rules_emit_identifiers root source_file extracted_at :
  Forall (holds_nonempty_str "coverage_id")
    (_extract_coverages root source_file extracted_at)
  ∧ Forall (holds_nonempty_str "exposure_id")
      (_extract_exposures root source_file extracted_at)
  ∧ Forall (holds_nonempty_str "limit_id")
      (_extract_limits root source_file extracted_at)
  ∧ Forall (holds_nonempty_str "deductible_id")
      (_extract_deductibles root source_file extracted_at)
  ∧ Forall (holds_nonempty_str "referral_id")
      (_extract_underwriter_referrals root source_file extracted_at)
  ∧ Forall (holds_nonempty_str "tax_surcharge_id")
      (_extract_tax_surcharges root source_file extracted_at).
Proof.
  unfold _extract_coverages, _extract_exposures, _extract_limits,
    _extract_deductibles, _extract_underwriter_referrals,
    _extract_tax_surcharges.
  repeat split; apply state_rows_forall; solve_forall solve_id.
Qed.

End Identifiers.

(** ** References between the tables of one document *)

(** The record added for the loop variables at hand is among the rows. *)
Ltac solve_row_exists :=
  eexists; split;
  [ repeat first
      [ eapply for_each_elem_of; [solve_keeps|eassumption|intros ?; cbv zeta]
      | apply for_each_keeps; [solve_keeps|] ];
    apply elem_of_app; right; apply list_elem_of_singleton; reflexivity
  | reflexivity ].

Lemma find_elem_of p e x : ET.find p e = Some x → x ∈ ET.findall p e.
Proof. apply head_Some_elem_of. Qed.

(** The columns of a parent record found by [lem] are those of the record
    built in the innermost loop. *)
Ltac solve_refers lem :=
  unfold refers_to;
  let r := fresh "r" in let Hr := fresh "Hr" in let Hcols := fresh "Hcols" in
  edestruct lem as (r & Hr & Hcols); [eassumption..|];
  exists r; split; [exact Hr|];
  unfold columns_of in Hcols |- *; cbn [fmap list_fmap] in Hcols |- *;
  injection Hcols as Hcols;
  repeat match goal with
         | Hc : r !! _ = Some _ |- _ => rewrite ?Hc; clear Hc
         end;
  reflexivity.

(** A parent found with [find] is null or refers to a record. *)
Ltac solve_optional_ref tag lem :=
  first
    [ left; reflexivity
    | match goal with
      | |- context [ET.find (ET.Child tag) ?e] =>
          let Hfind := fresh "Hfind" in
          destruct (ET.find (ET.Child tag) e) eqn:Hfind;
          [ apply find_elem_of in Hfind; right; solve_refers lem
          | left; reflexivity ]
      end
    | right; solve_refers lem ].

Section References.

Context `{Builtins}.

Lemma policies_row_exists root sf mt e data policy :
  data ∈ ET.findall (ET.Descendant "data") root →
  policy ∈ ET.findall (ET.Child "policy") data →
  ∃ r, r ∈ _extract_policies root sf mt e
       ∧ columns_of ["policy_id"; "session_id"] r
         = [Some (opt_str (ET.get policy "id"));
            Some (opt_str (ET.get root "id"))].
Proof. intros ??. unfold _extract_policies. cbv zeta. solve_row_exists. Qed.

Lemma lines_row_exists root sf e data policy line :
  data ∈ ET.findall (ET.Descendant "data") root →
  policy ∈ ET.findall (ET.Child "policy") data →
  line ∈ ET.findall (ET.Child "line") policy →
  ∃ r, r ∈ _extract_lines root sf e
       ∧ columns_of ["line_id"; "policy_id"] r
         = [Some (opt_str (ET.get line "id"));
            Some (opt_str (ET.get policy "id"))].
Proof. intros ???. unfold _extract_lines. solve_row_exists. Qed.

Lemma accounts_row_exists root sf e data account :
  data ∈ ET.findall (ET.Descendant "data") root →
  account ∈ ET.findall (ET.Descendant "account") data →
  ∃ r, r ∈ _extract_accounts root sf e
       ∧ columns_of ["account_id"; "policy_id"] r
         = [Some (opt_str (ET.get account "id"));
            Some (opt_str (first_policy_id data))].
Proof. intros ??. unfold _extract_accounts. solve_row_exists. Qed.

Lemma locations_row_exists root sf e data account location :
  data ∈ ET.findall (ET.Descendant "data") root →
  account ∈ ET.findall (ET.Descendant "account") data →
  location ∈ ET.findall (ET.Child "location") account →
  ∃ r, r ∈ _extract_locations root sf e
       ∧ columns_of ["location_id"; "account_id"; "policy_id"] r
         = [Some (opt_str (ET.get location "id"));
            Some (opt_str (ET.get account "id"));
            Some (opt_str (first_policy_id data))].
Proof. intros ???. unfold _extract_locations. solve_row_exists. Qed.

Lemma account_addresses_row_exists root sf e data account address :
  data ∈ ET.findall (ET.Descendant "data") root →
  account ∈ ET.findall (ET.Descendant "account") data →
  address ∈ ET.findall (ET.Child "address") account →
  ∃ r, r ∈ _extract_addresses root sf e
       ∧ columns_of ["address_id"; "location_id"; "account_id"; "policy_id"]
           r
         = [Some (opt_str (ET.get address "id"));
            Some VNone;
            Some (opt_str (ET.get account "id"));
            Some (opt_str (first_policy_id data))].
Proof. intros ???. unfold _extract_addresses. solve_row_exists. Qed.

Lemma location_addresses_row_exists
    root sf e data account location address :
  data ∈ ET.findall (ET.Descendant "data") root →
  account ∈ ET.findall (ET.Descendant "account") data →
  location ∈ ET.findall (ET.Child "location") account →
  address ∈ ET.findall (ET.Child "address") location →
  ∃ r, r ∈ _extract_addresses root sf e
       ∧ columns_of ["address_id"; "location_id"; "account_id"; "policy_id"]
           r
         = [Some (opt_str (ET.get address "id"));
            Some (opt_str (ET.get location "id"));
            Some (opt_str (ET.get account "id"));
            Some (opt_str (first_policy_id data))].
Proof. intros ????. unfold _extract_addresses. solve_row_exists. Qed.

(** X11. Every record of [coverages], [exposures], [limits] and
    [deductibles] refers to a record of [lines] of the same document: some
    [lines] record holds the same [line_id] and [policy_id].  A record of
    [tax_surcharges] does so unless its [line_id] is null. *)
Theorem line_children_refer_to_lines root sf e sf' e' :
  let lines := _extract_lines root sf' e' in
  Forall (refers_to ["line_id"; "policy_id"] lines)
    (_extract_coverages root sf e)
  ∧ Forall (refers_to ["line_id"; "policy_id"] lines)
      (_extract_exposures root sf e)
  ∧ Forall (refers_to ["line_id"; "policy_id"] lines)
      (_extract_limits root sf e)
  ∧ Forall (refers_to ["line_id"; "policy_id"] lines)
      (_extract_deductibles root sf e)
  ∧ Forall (λ r, holds_null "line_id" r
                 ∨ refers_to ["line_id"; "policy_id"] lines r)
      (_extract_tax_surcharges root sf e).
Proof.
  intros lines. subst lines.
  unfold _extract_coverages, _extract_exposures, _extract_limits,
    _extract_deductibles, _extract_tax_surcharges.
  split; [|split; [|split; [|split]]]; apply state_rows_forall.
  - solve_forall ltac:(solve_refers lines_row_exists).
  - solve_forall ltac:(solve_refers lines_row_exists).
  - solve_forall ltac:(solve_refers lines_row_exists).
  - solve_forall ltac:(solve_refers lines_row_exists).
  - solve_forall ltac:(first [left; reflexivity
                             |right; solve_refers lines_row_exists]).
Qed.

(** X12. Every record of [lines], [coverages], [exposures], [limits],
    [deductibles], [underwriter_referrals] and [tax_surcharges] refers to
    a record of [policies] of the same document: some [policies] record
    holds the same [policy_id]. *)
Theorem policy_children_refer_to_policies root sf e sf' mt' e' :
  let policies := _extract_policies root sf' mt' e' in
  Forall (refers_to ["policy_id"] policies) (_extract_lines root sf e)
  ∧ Forall (refers_to ["policy_id"] policies)
      (_extract_coverages root sf e)
  ∧ Forall (refers_to ["policy_id"] policies)
      (_extract_exposures root sf e)
  ∧ Forall (refers_to ["policy_id"] policies) (_extract_limits root sf e)
  ∧ Forall (refers_to ["policy_id"] policies)
      (_extract_deductibles root sf e)
  ∧ Forall (refers_to ["policy_id"] policies)
      (_extract_underwriter_referrals root sf e)
  ∧ Forall (refers_to ["policy_id"] policies)
      (_extract_tax_surcharges root sf e).
Proof.
  intros policies. subst policies.
  unfold _extract_lines, _extract_coverages, _extract_exposures,
    _extract_limits, _extract_deductibles, _extract_underwriter_referrals,
    _extract_tax_surcharges.
  split; [solve_forall ltac:(solve_refers policies_row_exists)|].
  repeat split; apply state_rows_forall;
    solve_forall ltac:(solve_refers policies_row_exists).
Qed.

(** X13. Every record of [accounts], [locations], [buildings],
    [occupancies] and [addresses] carries, as [policy_id], the identifier
    of the first [policy] child of a [data] node of the document, whatever
    policy the record's node lies under. *)
Theorem account_rows_carry_first_policy root sf e :
  Forall (carries_first_policy root) (_extract_accounts root sf e)
  ∧ Forall (carries_first_policy root) (_extract_locations root sf e)
  ∧ Forall (carries_first_policy root) (_extract_buildings root sf e)
  ∧ Forall (carries_first_policy root) (_extract_occupancies root sf e)
  ∧ Forall (carries_first_policy root) (_extract_addresses root sf e).
Proof.
  unfold _extract_accounts, _extract_locations, _extract_buildings,
    _extract_occupancies, _extract_addresses.
  repeat split;
    solve_forall ltac:(eexists; split; [eassumption|reflexivity]).
Qed.

(** X14. Every record of [locations] and of [addresses] refers to a
    record of [accounts] of the same document, with the same [account_id]
    and [policy_id].  Every record of [buildings], [occupancies] and
    [addresses] whose [location_id] is not null refers to a record of
    [locations], with the same [location_id] and [policy_id] (and
    [account_id], for an address). *)
Theorem account_children_refer_to_parents root sf e sf' e' :
  let accounts := _extract_accounts root sf' e' in
  let locations := _extract_locations root sf' e' in
  Forall (refers_to ["account_id"; "policy_id"] accounts)
    (_extract_locations root sf e)
  ∧ Forall (refers_to ["account_id"; "policy_id"] accounts)
      (_extract_addresses root sf e)
  ∧ Forall (λ r, holds_null "location_id" r
                 ∨ refers_to ["location_id"; "policy_id"] locations r)
      (_extract_buildings root sf e)
  ∧ Forall (λ r, holds_null "location_id" r
                 ∨ refers_to ["location_id"; "policy_id"] locations r)
      (_extract_occupancies root sf e)
  ∧ Forall (λ r, holds_null "location_id" r
                 ∨ refers_to ["location_id"; "account_id"; "policy_id"]
                     locations r)
      (_extract_addresses root sf e).
Proof.
  intros accounts locations. subst accounts locations.
  unfold _extract_locations at 1.
  unfold _extract_addresses, _extract_buildings, _extract_occupancies.
  split; [solve_forall ltac:(solve_refers accounts_row_exists)|].
  split; [solve_forall ltac:(solve_refers accounts_row_exists)|].
  repeat split;
    solve_forall ltac:(solve_optional_ref "location" locations_row_exists).
Qed.

(** X15. Every record of [accounts], [locations], [buildings],
    [occupancies] and [addresses] whose [policy_id] is not null refers to
    a record of [policies] of the same document. *)
Theorem account_rows_refer_to_policies root sf e sf' mt' e' :
  let policies := _extract_policies root sf' mt' e' in
  let refers r :=
    holds_null "policy_id" r ∨ refers_to ["policy_id"] policies r in
  Forall refers (_extract_accounts root sf e)
  ∧ Forall refers (_extract_locations root sf e)
  ∧ Forall refers (_extract_buildings root sf e)
  ∧ Forall refers (_extract_occupancies root sf e)
  ∧ Forall refers (_extract_addresses root sf e).
Proof.
  intros policies refers. subst policies refers.
  unfold _extract_accounts, _extract_locations, _extract_buildings,
    _extract_occupancies, _extract_addresses.
  repeat split;
    solve_forall ltac:(solve_optional_ref "policy" policies_row_exists).
Qed.

(** X16. No node is dropped.  Under every [data] node of a document,
    each [policy] child yields a [policies] record with its identifier and
    the identifier of the session, and each of its [line] children a
    [lines] record with the identifiers of the line and the policy; each
    [account] descendant yields an [accounts] record, each of its
    [location] children a [locations] record, and each [address] child of
    the account or of one of its locations an [addresses] record, whose
    [location_id] is null for an address of the account. *)
Theorem every_node_yields_a_record root sf mt e :
  Forall (λ data,
    Forall (λ policy,
      has_record ["policy_id"; "session_id"]
        [opt_str (ET.get policy "id"); opt_str (ET.get root "id")]
        (_extract_policies root sf mt e)
      ∧ Forall (λ line,
          has_record ["line_id"; "policy_id"]
            [opt_str (ET.get line "id"); opt_str (ET.get policy "id")]
            (_extract_lines root sf e))
          (ET.findall (ET.Child "line") policy))
      (ET.findall (ET.Child "policy") data)
    ∧ Forall (λ account,
        has_record ["account_id"; "policy_id"]
          [opt_str (ET.get account "id"); opt_str (first_policy_id data)]
          (_extract_accounts root sf e)
        ∧ Forall (λ address,
            has_record
              ["address_id"; "location_id"; "account_id"; "policy_id"]
              [opt_str (ET.get address "id"); VNone;
               opt_str (ET.get account "id");
               opt_str (first_policy_id data)]
              (_extract_addresses root sf e))
            (ET.findall (ET.Child "address") account)
        ∧ Forall (λ location,
            has_record ["location_id"; "account_id"; "policy_id"]
              [opt_str (ET.get location "id");
               opt_str (ET.get account "id");
               opt_str (first_policy_id data)]
              (_extract_locations root sf e)
            ∧ Forall (λ address,
                has_record
                  ["address_id"; "location_id"; "account_id"; "policy_id"]
                  [opt_str (ET.get address "id");
                   opt_str (ET.get location "id");
                   opt_str (ET.get account "id");
                   opt_str (first_policy_id data)]
                  (_extract_addresses root sf e))
                (ET.findall (ET.Child "address") location))
            (ET.findall (ET.Child "location") account))
        (ET.findall (ET.Descendant "account") data))
    (ET.findall (ET.Descendant "data") root).
Proof.
  apply Forall_forall. intros data Hdata. split.
  - apply Forall_forall. intros policy Hpolicy. split.
    + by eapply policies_row_exists.
    + apply Forall_forall. intros line Hline.
      by eapply lines_row_exists.
  - apply Forall_forall. intros account Haccount. split.
    { by eapply accounts_row_exists. }
    split.
    + apply Forall_forall. intros address Haddress.
      by eapply account_addresses_row_exists.
    + apply Forall_forall. intros location Hlocation. split.
      * by eapply locations_row_exists.
      * apply Forall_forall. intros address Haddress.
        by eapply location_addresses_row_exists.
Qed.

End References.

(** ** Records in document order *)

(** A loop followed along the keys of the nodes it visits. *)
Lemma for_each_trace {A S B} (R : S → list B → Prop) (xs : list A)
    (body : A → S → S) (f : A → list B) s acc :
  (∀ x s acc, x ∈ xs → R s acc → R (body x s) (acc ++ f x)) →
  R s acc → R (for_each xs body s) (acc ++ (xs ≫= f)).
Proof.
  intros Hstep. revert s acc.
  induction xs as [|x xs IH]; intros s acc Hs.
  - by rewrite for_each_nil, app_nil_r.
  - rewrite for_each_cons, bind_cons, (assoc_L (++)). apply IH.
    + intros y t acc' Hy. apply Hstep. by right.
    + apply Hstep; [by left|done].
Qed.

Lemma lists_keys_snoc `{Builtins} columns (records : list row) keys r k :
  lists_keys columns records keys →
  columns_of columns r = Some ∘ opt_str <$> k →
  lists_keys columns (records ++ [r]) (keys ++ [k]).
Proof.
  unfold lists_keys. intros Hrecords Hr.
  by rewrite !fmap_app, Hrecords, !list_fmap_singleton, Hr.
Qed.

Ltac trace_loops :=
  repeat first
    [ assumption
    | rewrite (assoc_L (++))
    | match goal with
      | |- lists_keys _ [] [] => reflexivity
      | |- state_lists_keys _ ([], 0) [] => reflexivity
      | |- ?R ?c (for_each _ _ _) (_ ++ (_ ≫= _)) =>
          apply (for_each_trace (R c));
            [intros ? ? ? _ ?; cbv beta zeta|]
      | |- ?R ?c (for_each _ _ _) (_ ≫= _) =>
          apply (for_each_trace (R c) _ _ _ _ []);
            [intros ? ? ? _ ?; cbv beta zeta|]
      | Hs : lists_keys _ _ _ |- lists_keys _ (_ ++ [_]) (_ ++ [_]) =>
          apply lists_keys_snoc; [exact Hs|reflexivity]
      | Hs : state_lists_keys _ ?s _ |- _ =>
          is_var s; destruct s as [? ?]; unfold state_lists_keys in Hs |- *;
          cbn [fst] in Hs
      | |- context [if ?b then _ else _] =>
          destruct b; cbv beta iota zeta
      | |- lists_keys _ (_, _).1 _ => cbn [fst]
      end ].

Section Order.

Context `{Builtins}.

Lemma state_lists_keys_rows columns (s : list row * nat) keys :
  state_lists_keys columns s keys →
  lists_keys columns (let '(records, _) := s in records) keys.
Proof. by destruct s. Qed.

(** X18. The rules of [policies], [lines], [accounts] and [locations]
    emit exactly one record per node they visit, in document order: the
    key columns of the records are, record by record, the identifiers of
    the nodes and of their parents. *)
Theorem one_record_per_node root sf mt e :
  lists_keys ["policy_id"; "session_id"]
    (_extract_policies root sf mt e) (policy_keys root)
  ∧ lists_keys ["line_id"; "policy_id"]
      (_extract_lines root sf e) (line_keys root)
  ∧ lists_keys ["account_id"; "policy_id"]
      (_extract_accounts root sf e) (account_keys root)
  ∧ lists_keys ["location_id"; "account_id"; "policy_id"]
      (_extract_locations root sf e) (location_keys root).
Proof.
  unfold _extract_policies, _extract_lines, _extract_accounts,
    _extract_locations, policy_keys, line_keys, account_keys,
    location_keys. cbv zeta.
  repeat split; trace_loops.
Qed.

(** X19. The rules of [buildings], [occupancies] and [addresses] emit
    exactly one record per node, account by account: first the records of
    the direct children of the account, which carry the identifier of the
    account's first location (null for an address), then those of the
    children of its locations. *)
Theorem placed_records_in_order root sf e :
  lists_keys ["building_id"; "location_id"; "policy_id"]
    (_extract_buildings root sf e) (placed_keys "building" root)
  ∧ lists_keys ["occupancy_id"; "location_id"; "policy_id"]
      (_extract_occupancies root sf e) (placed_keys "occupancy" root)
  ∧ lists_keys ["address_id"; "location_id"; "account_id"; "policy_id"]
      (_extract_addresses root sf e) (address_keys root).
Proof.
  unfold _extract_buildings, _extract_occupancies, _extract_addresses,
    placed_keys, address_keys.
  repeat split; trace_loops.
Qed.

(** X20. The rules with a counter emit exactly one record per node, in
    document order, each with the identifiers of the line and the policy
    above its node; a referral carries the policy only, and the tax
    surcharges of a policy, whose [line_id] is null, come before those of
    its lines. *)
Theorem counter_records_carry_parents root sf e :
  lists_keys ["line_id"; "policy_id"]
    (_extract_coverages root sf e) (line_child_parents "coverage" root)
  ∧ lists_keys ["line_id"; "policy_id"]
      (_extract_exposures root sf e) (line_child_parents "exposure" root)
  ∧ lists_keys ["line_id"; "policy_id"]
      (_extract_limits root sf e) (line_child_parents "limit" root)
  ∧ lists_keys ["line_id"; "policy_id"]
      (_extract_deductibles root sf e)
      (line_child_parents "deductible" root)
  ∧ lists_keys ["policy_id"]
      (_extract_underwriter_referrals root sf e) (referral_parents root)
  ∧ lists_keys ["policy_id"; "line_id"]
      (_extract_tax_surcharges root sf e) (tax_parents root).
Proof.
  unfold _extract_coverages, _extract_exposures, _extract_limits,
    _extract_deductibles, _extract_underwriter_referrals,
    _extract_tax_surcharges, line_child_parents, referral_parents,
    tax_parents.
  repeat split; apply state_lists_keys_rows; trace_loops.
Qed.

End Order.
(** ** Amounts read from attributes *)

Lemma get_float_own_number `{Builtins} node default :
  _get_float (Some node) default
  = match own_number node with
    | Some x => VFloat x
    | None => default
    end.
Proof.
  unfold _get_float, _get_text, own_number.
  destruct (ET.text node) as [t|]; simpl; [|done].
  destruct (nonempty t); simpl; [|done].
  by destruct (nonempty (str_strip t)).
Qed.

Lemma hold_amounts_snoc `{Builtins} columns (records : list row) nodes r node :
  hold_amounts columns records nodes →
  Forall (λ c, holds_amount c node r) columns →
  hold_amounts columns (records ++ [r]) (nodes ++ [node]).
Proof. intros ??. apply Forall2_app; [done|]. by constructor. Qed.

Ltac amount_loops :=
  repeat first
    [ assumption
    | rewrite (assoc_L (++))
    | match goal with
      | |- hold_amounts _ [] [] => constructor
      | |- state_hold_amounts _ ([], 0) [] => constructor
      | |- ?R ?c (for_each _ _ _) (_ ++ (_ ≫= _)) =>
          apply (for_each_trace (R c));
            [intros ? ? ? _ ?; cbv beta zeta|]
      | |- ?R ?c (for_each _ _ _) (_ ≫= _) =>
          apply (for_each_trace (R c) _ _ _ _ []);
            [intros ? ? ? _ ?; cbv beta zeta|]
      | Hs : hold_amounts _ _ _ |- hold_amounts _ (_ ++ [_]) (_ ++ [_]) =>
          apply hold_amounts_snoc;
            [exact Hs
            |repeat (constructor;
               [unfold holds_amount; rewrite <-get_float_own_number;
                reflexivity|]);
             constructor]
      | Hs : state_hold_amounts _ ?s _ |- _ =>
          is_var s; destruct s as [? ?];
          unfold state_hold_amounts in Hs |- *; cbn [fst] in Hs
      | |- context [if ?b then _ else _] =>
          destruct b; cbv beta iota zeta
      | |- hold_amounts _ (_, _).1 _ => cbn [fst]
      end ].

Section Amounts.

Context `{Builtins}.

Lemma state_hold_amounts_rows columns (s : list row * nat) nodes :
  state_hold_amounts columns s nodes →
  hold_amounts columns (let '(records, _) := s in records) nodes.
Proof. by destruct s. Qed.

(** X21. The columns [written] and [change] of [lines], [coverages] and
    [tax_surcharges], which the schema declares as doubles, are not parsed
    from the attribute.  Record by record, along the elements the rule
    visits: the column holds the attribute of the element as it is written
    in the document (null when it is missing), unless the text of the
    element itself parses as a number, which is then taken. *)
Theorem attribute_amounts_are_not_parsed root sf e :
  hold_amounts ["written"; "change"]
    (_extract_lines root sf e) (line_elements root)
  ∧ hold_amounts ["written"; "change"]
      (_extract_coverages root sf e) (coverage_elements root)
  ∧ hold_amounts ["written"; "change"]
      (_extract_tax_surcharges root sf e) (tax_elements root).
Proof.
  unfold _extract_lines, _extract_coverages, _extract_tax_surcharges,
    line_elements, coverage_elements, tax_elements.
  split; [amount_loops|].
  split; apply state_hold_amounts_rows; amount_loops.
Qed.

End Amounts.

(** ** The rules on the example documents *)

Section Scenarios.

Context `{Builtins}.

(** One policy [P1] with one line [L1] without coverage. *)
Example scenario_policy_line source_file file_mtime extracted_at :
  let doc :=
    Examples.node "session" [("id", "S1")] [
      Examples.node "data" [] [
        Examples.node "policy" [("id", "P1")] [
          Examples.node "line" [("id", "L1")] [] ] ] ] in
  columns_of ["policy_id"; "session_id"]
    <$> _extract_policies doc source_file file_mtime extracted_at
  = [ [Some (VStr "P1"); Some (VStr "S1")] ]
  ∧ columns_of ["line_id"; "policy_id"]
      <$> _extract_lines doc source_file extracted_at
    = [ [Some (VStr "L1"); Some (VStr "P1")] ]
  ∧ _extract_coverages doc source_file extracted_at = [].
Proof. by repeat split. Qed.

(** Two coverages without identifier under one line. *)
Example scenario_two_coverages source_file extracted_at :
  columns_of ["coverage_id"; "line_id"; "policy_id"]
    <$> _extract_coverages Examples.two_coverages_doc
          source_file extracted_at
  = [ [Some (VStr "cov_P1_L1_1"); Some (VStr "L1"); Some (VStr "P1")];
      [Some (VStr "cov_P1_L1_2"); Some (VStr "L1"); Some (VStr "P1")] ].
Proof. reflexivity. Qed.

End Scenarios.

(** An [Amount] child with text that is no number: the field is null and the
    row is emitted. *)
Example scenario_unparsable_amount :
  columns_of ["limit_id"; "type"; "amount"; "f_value"]
    <$> _extract_limits (H := Examples.decimal_builtins)
          (Examples.node "session" [] [
             Examples.node "data" [] [
               Examples.node "policy" [("id", "P1")] [
                 Examples.node "line" [("id", "L1")] [
                   Examples.node "limit" [("id", "LIM1")] [
                     Examples.leaf "Type" " Occurrence ";
                     Examples.leaf "Amount" "n/a";
                     Examples.leaf "fValue" "2500.00" ] ] ] ] ])
          "a.xml" "2024-03-05T08:00:00"
  = [ [Some (VStr "LIM1"); Some (VStr "Occurrence"); Some VNone;
       Some (VFloat (H := Examples.decimal_builtins) "2500.00")] ].
Proof. reflexivity. Qed.

(** Two files, first sync, then a second call with the returned watermark. *)
Example scenario_two_calls :
  ∃ rows,
    read_table (H := Examples.decimal_builtins) Examples.connector
      Examples.two_files "coverages" ∅ ∅
    = Ok (rows, {[ "last_modified_time" := "2024-03-02T10:00:00" ]})
    ∧ length rows = 2
    ∧ read_table (H := Examples.decimal_builtins) Examples.connector
        Examples.two_files "coverages"
        {[ "last_modified_time" := "2024-03-02T10:00:00" ]} ∅
      = Ok ([], {[ "last_modified_time" := "2024-03-02T10:00:00" ]}).
Proof. eexists. split; [reflexivity|]. by split. Qed.

(** C2, keys that repeat. Two files of one call hold the same document, a
    coverage without identifier under policy [P1] and line [L1]: the call
    returns two rows with the same primary key.  Within one file, a coverage
    whose explicit identifier is [cov_P1_L1_1] and a coverage without
    identifier yield two rows with the same primary key as well. *)
Lemma primary_keys_not_unique :
  (∃ rows new_offset,
     read_table (H := Examples.decimal_builtins) Examples.connector
       Examples.two_files "coverages" ∅ ∅
     = Ok (rows, new_offset)
     ∧ pk_tuple "coverages" <$> rows
       = [ [Some (VStr "cov_P1_L1_1"); Some (VStr "L1"); Some (VStr "P1")];
           [Some (VStr "cov_P1_L1_1"); Some (VStr "L1"); Some (VStr "P1")] ])
  ∧ pk_tuple "coverages"
      <$> _extract_coverages (H := Examples.decimal_builtins)
            Examples.clash_doc "a.xml" "2024-03-05T08:00:00"
    = [ [Some (VStr "cov_P1_L1_1"); Some (VStr "L1"); Some (VStr "P1")];
        [Some (VStr "cov_P1_L1_1"); Some (VStr "L1"); Some (VStr "P1")] ].
Proof.
  split; [|vm_compute; reflexivity].
  eexists _, _. split; [reflexivity|vm_compute; reflexivity].
Qed.

(** C3, a direct child beside a location. The building [B1] is a direct
    child of an account that also has the location [LOC1]: its row carries
    [LOC1] as [location_id], not null. *)
Lemma direct_building_takes_first_location :
  ET.findall (ET.Child "building") Examples.direct_building_account
  = [ Examples.node "building" [("id", "B1")] [] ]
  ∧ columns_of ["building_id"; "location_id"; "policy_id"]
      <$> _extract_buildings (H := Examples.decimal_builtins)
            Examples.direct_building_doc "a.xml" "2024-03-05T08:00:00"
    = [ [Some (VStr "B1"); Some (VStr "LOC1"); Some (VStr "P1")] ]
  ∧ Some (VStr (H := Examples.decimal_builtins) "LOC1") ≠ Some VNone.
Proof. by repeat split. Qed.

(** The two placements of [Examples.placements_doc]: a building directly
    under an account without location, and a building under a location. *)
Lemma rows_by_placement_witness :
  Examples.placements_data
  ∈ ET.findall (ET.Descendant "data") Examples.placements_doc
  ∧ Examples.direct_account
    ∈ ET.findall (ET.Descendant "account") Examples.placements_data
  ∧ Examples.nested_account
    ∈ ET.findall (ET.Descendant "account") Examples.placements_data
  ∧ building_row (H := Examples.decimal_builtins)
      (Some "B1") None (Some "P1") "a.xml" "2024-03-05T08:00:00"
    ∈ _extract_buildings Examples.placements_doc
        "a.xml" "2024-03-05T08:00:00"
  ∧ building_row (H := Examples.decimal_builtins)
      (Some "B1") (Some "LOC2") (Some "P1") "a.xml" "2024-03-05T08:00:00"
    ∈ _extract_buildings Examples.placements_doc
        "a.xml" "2024-03-05T08:00:00".
Proof.
  assert (Examples.placements_data
          ∈ ET.findall (ET.Descendant "data") Examples.placements_doc)
    as Hdata by (vm_compute; left).
  assert (Examples.direct_account
          ∈ ET.findall (ET.Descendant "account") Examples.placements_data)
    as Hdirect by (vm_compute; left).
  assert (Examples.nested_account
          ∈ ET.findall (ET.Descendant "account") Examples.placements_data)
    as Hnested by (vm_compute; right; left).
  split; [done|]. split; [done|]. split; [done|]. split.
  - refine (proj1 (rows_by_placement (H := Examples.decimal_builtins)
      Examples.placements_doc "a.xml" "2024-03-05T08:00:00"
      Examples.placements_data Examples.direct_account Hdata Hdirect)
      (Examples.node "building" [("id", "B1")] []) _).
    vm_compute. left.
  - refine (proj1 (proj2 (rows_by_placement (H := Examples.decimal_builtins)
      Examples.placements_doc "a.xml" "2024-03-05T08:00:00"
      Examples.placements_data Examples.nested_account Hdata Hnested))
      Examples.nested_location
      (Examples.node "building" [("id", "B1")] []) _ _).
    + vm_compute. left.
    + vm_compute. left.
Defined.

(** The two coverages without identifier of [Examples.two_coverages_doc]. *)
Lemma synthesized_keys_distinct_witness :
  ∃ r1 r2,
    _extract_coverages (H := Examples.decimal_builtins)
      Examples.two_coverages_doc "a.xml" "2024-03-05T08:00:00" !! 0 = Some r1
    ∧ _extract_coverages (H := Examples.decimal_builtins)
        Examples.two_coverages_doc "a.xml" "2024-03-05T08:00:00" !! 1
      = Some r2
    ∧ pk_tuple "coverages" r1 ≠ pk_tuple "coverages" r2.
Proof.
  destruct (synthesized_keys_distinct_within_file
    (H := Examples.decimal_builtins) Examples.two_coverages_doc
    "a.xml" "2024-03-05T08:00:00") as [[_ Hdistinct] _].
  eexists _, _. split; [reflexivity|]. split; [reflexivity|].
  eapply (Hdistinct 0 1); [lia|reflexivity..].
Defined.


(** The two files of [Examples.two_files], read for [coverages] and then,
    a day later, for [lines] from the offset returned. *)
Lemma second_read_returns_nothing_witness :
  (∀ p, p ∈ _get_xml_files Examples.connector Examples.two_files →
        getmtime_iso Examples.two_files p ≠ "")
  ∧ ∃ records new_offset,
      read_table (H := Examples.decimal_builtins) Examples.connector
        Examples.two_files "coverages" ∅ ∅
      = Ok (records, new_offset)
      ∧ read_table (H := Examples.decimal_builtins) Examples.connector
          (with_clock Examples.two_files "2024-03-06T08:00:00")
          "lines" new_offset ∅
        = Ok ([], new_offset).
Proof.
  assert (∀ p, p ∈ _get_xml_files Examples.connector Examples.two_files →
               getmtime_iso Examples.two_files p ≠ "") as Hmtime.
  { intros p _. simpl. by case_bool_decide. }
  split; [exact Hmtime|].
  destruct (second_read_returns_nothing (H := Examples.decimal_builtins)
    Examples.connector Examples.two_files "coverages" "lines" ∅ ∅ ∅
    (xml_parse Examples.two_files) "2024-03-06T08:00:00" Hmtime)
    as (records & new_offset & Hfirst & Hsecond).
  exists records, new_offset. split; [exact Hfirst|exact Hsecond].
Defined.

(** A first sync of [Examples.two_files] and, a day later, a call started
    from the modification time of the older file. *)
Lemma later_watermark_reads_less_witness :
  ("" ≤ "2024-03-01T10:00:00")%string
  ∧ ∃ records records' outgoing outgoing',
      read_table (H := Examples.decimal_builtins) Examples.connector
        Examples.two_files "coverages" ∅ ∅
      = Ok (records, {[ "last_modified_time" := outgoing ]})
      ∧ read_table (H := Examples.decimal_builtins) Examples.connector
          (with_clock Examples.two_files "2024-03-06T08:00:00") "coverages"
          {[ "last_modified_time" := "2024-03-01T10:00:00" ]} ∅
        = Ok (records', {[ "last_modified_time" := outgoing' ]})
      ∧ (∃ sub, sub `sublist_of` records
                ∧ Forall2 same_but_timestamp records' sub)
      ∧ (outgoing ≤ outgoing')%string.
Proof.
  split; [apply empty_le|].
  assert (default "" ((∅ : gmap string string) !! "last_modified_time")
          ≤ default ""
              (({[ "last_modified_time" := "2024-03-01T10:00:00" ]}
                : gmap string string) !! "last_modified_time"))%string
    as Hlater by (rewrite lookup_empty, lookup_offset; apply empty_le).
  destruct (later_watermark_reads_less (H := Examples.decimal_builtins)
    Examples.connector Examples.two_files "coverages" ∅
    {[ "last_modified_time" := "2024-03-01T10:00:00" ]} ∅ ∅
    "2024-03-06T08:00:00" Hlater)
    as (records & records' & outgoing & outgoing'
        & Hfirst & Hsecond & Hsub & Hle).
  exists records, records', outgoing, outgoing'.
  split; [exact Hfirst|]. split; [exact Hsecond|]. by split.
Defined.
